(** * Moonshot red-teaming harness: a shallow embedding and its properties

    The development follows three source files:

    - [moonshot/data/metrics/exactstrmatch.py]        (module [ExactStrMatch])
    - [moonshot/data/runners-modules/redteaming.py]   (module [RedTeaming])
    - [moonshot/integrations/cli/redteam/session.py]  (module [Cli])

    Python exceptions are values of an error type, a call that may raise
    returns a [res], and code that both mutates state and may raise runs in
    the monad [M] of module [Py]: as in Python, the state reached when an
    exception is raised is kept, it is not rolled back. *)

From Stdlib Require Import QArith.
From stdpp Require Import gmap strings list.

Set Warnings "-register-all".

#[local] Open Scope Z_scope.
#[local] Open Scope string_scope.
#[local] Open Scope list_scope.

(* ===================================================================== *)
(** * Python values, exceptions and the state-and-exception monad         *)
(* ===================================================================== *)

Module Py.

(** The exception classes the three files can meet.  All of them derive
    from [Exception], so an [except Exception] clause catches each one. *)
Inductive exn_class : Type :=
| ZeroDivisionError
| RuntimeError
| TypeError
| KeyError
| OtherException (class_name : string).

Record exn : Type := mk_exn { exn_cls : exn_class; exn_msg : string }.

(** [str(e)] *)
Definition exn_str (e : exn) : string := exn_msg e.

Inductive res (A : Type) : Type :=
| Ok (a : A)
| Raise (e : exn).
Arguments Ok {A} a.
Arguments Raise {A} e.

Definition res_bind {A B} (r : res A) (k : A -> res B) : res B :=
  match r with
  | Ok a => k a
  | Raise e => Raise e
  end.

(** A list comprehension [[f(x) for x in xs]]: left to right, the first
    exception ends it. *)
Fixpoint comprehension {A B} (f : A -> res B) (xs : list A) : res (list B) :=
  match xs with
  | [] => Ok []
  | x :: xs' =>
      res_bind (f x) (fun y =>
      res_bind (comprehension f xs') (fun ys => Ok (y :: ys)))
  end.

(** Dynamically typed values, as far as the CLI handles them. *)
Inductive pyval : Type :=
| VNone
| VBool (b : bool)
| VInt (z : Z)
| VStr (s : string)
| VList (l : list pyval)
| VDict (d : list (string * pyval)).

(** Python truthiness: [if v] / [not v]. *)
Definition truthy (v : pyval) : bool :=
  match v with
  | VNone => false
  | VBool b => b
  | VInt z => negb (Z.eqb z 0)
  | VStr s => negb (String.eqb s "")
  | VList l => match l with [] => false | _ => true end
  | VDict d => match d with [] => false | _ => true end
  end.

(** State and exceptions. *)
Definition M (S A : Type) : Type := S -> res A * S.

Definition ret {S A} (a : A) : M S A := fun s => (Ok a, s).

Definition bind {S A B} (m : M S A) (k : A -> M S B) : M S B :=
  fun s =>
    match m s with
    | (Ok a, s') => k a s'
    | (Raise e, s') => (Raise e, s')
    end.

Definition raise {S A} (e : exn) : M S A := fun s => (Raise e, s).

Definition lift {S A} (r : res A) : M S A := fun s => (r, s).

(** [try: body  except Exception as e: handler(e)] *)
Definition try_except {S A} (body : M S A) (handler : exn -> M S A) : M S A :=
  fun s =>
    match body s with
    | (Ok a, s') => (Ok a, s')
    | (Raise e, s') => handler e s'
    end.

Definition gets {S A} (f : S -> A) : M S A := fun s => (Ok (f s), s).
Definition modify {S} (f : S -> S) : M S unit := fun s => (Ok tt, f s).

End Py.

Import Py.

Declare Scope py_scope.
Delimit Scope py_scope with py.
Notation "'do' x <- m ; k" := (bind m (fun x => k))
  (at level 10, x name, m at level 100, k at level 200) : py_scope.
Notation "'perform' m ; k" := (bind m (fun _ => k))
  (at level 10, m at level 100, k at level 200) : py_scope.

(* ===================================================================== *)
(** * exactstrmatch.py                                                    *)
(* ===================================================================== *)

Module ExactStrMatch.

(** JSON values of a metric's response dictionary.  A Python [float] is
    modelled by the rational it approximates: [correct / total] on two
    [int]s is the correctly rounded quotient, and rounding is monotone and
    fixes 0 and 1, so bounds proved on the rational hold for the float. *)
Inductive json : Type :=
| JNumber (q : Q)
| JString (s : string)
| JBool (b : bool)
| JNull.

(** A response dictionary, in insertion order. *)
Definition response := list (string * json).

Inductive json_type : Type := TNumber | TString | TBoolean | TNullType.

(** The part of a draft-07 object schema that [output_schema] uses. *)
Record schema : Type := mk_schema {
  sch_title : string;
  sch_description : string;
  sch_properties : list (string * json_type);
  sch_required : list string
}.

(** [ExactStrMatch.output_schema] *)
Definition output_schema : schema :=
  {| sch_title := "ExactStrMatchOutput";
     sch_description := "Schema for the output of ExactStrMatch metric calculation.";
     sch_properties := [("exact_str_match", TNumber)];
     sch_required := ["exact_str_match"] |}.

Fixpoint dict_get {V} (k : string) (d : list (string * V)) : option V :=
  match d with
  | [] => None
  | (k', v) :: d' => if String.eqb k k' then Some v else dict_get k d'
  end.

Definition has_type (v : json) (t : json_type) : bool :=
  match v, t with
  | JNumber _, TNumber => true
  | JString _, TString => true
  | JBool _, TBoolean => true
  | JNull, TNullType => true
  | _, _ => false
  end.

(** Modelled from the spec: [MetricInterface.validate_output] is inherited
    from [moonshot.src.metrics.metric_interface], which is not among the
    sources.  The spec (4.6) describes the output schema as "a small
    structural contract: named numeric/string fields and which are
    required": every required field is present, and every declared field
    that is present has the declared type. *)
Definition validate_output (r : response) (s : schema) : bool :=
  forallb (fun k => match dict_get k r with Some _ => true | None => false end)
          (sch_required s)
  && forallb (fun '(k, t) => match dict_get k r with
                             | Some v => has_type v t
                             | None => true
                             end)
             (sch_properties s).

(** [a / b] on Python [int]s. *)
Definition truediv (a b : Z) : res Q :=
  if Z.eqb b 0 then Raise (mk_exn ZeroDivisionError "division by zero")
  else Ok (inject_Z a / inject_Z b)%Q.

(** The [for] loop of [get_results], lines 70-72: [correct] after the loop
    over [zip(predicted_results, targets)], started from [correct]. *)
Fixpoint count_loop (pairs : list (string * string)) (correct : Z) : Z :=
  match pairs with
  | [] => correct
  | (result, target) :: rest =>
      count_loop rest (if String.eqb result target then correct + 1 else correct)
  end.

(** Python's [zip]: stops at the shorter argument. *)
Fixpoint zip {A B} (xs : list A) (ys : list B) : list (A * B) :=
  match xs, ys with
  | x :: xs', y :: ys' => (x, y) :: zip xs' ys'
  | _, _ => []
  end.

Section GetResults.

(** The validator a metric instance inherits; [get_results] is given for
    any validator, [validate_output] above is the one the spec describes. *)
Variable validate : response -> schema -> bool.

(** [ExactStrMatch.get_results], lines 67-81.  [prompts] is not read.  The
    [@timeit] decorator only reports the duration of the call and hands on
    its result or exception. *)
Definition get_results (prompts : list string)
           (predicted_results targets : list string) : res response :=
  let correct := 0 in
  let total := Z.of_nat (length predicted_results) in
  let correct := count_loop (zip predicted_results targets) correct in
  res_bind (truediv correct total) (fun score =>
  let response_dict := [("exact_str_match", JNumber score)] in
  if validate response_dict output_schema then Ok response_dict
  else Raise (mk_exn RuntimeError
                "[ExactStrMatch] Failed json schema validation for output response.")).

End GetResults.

(** The spec's reading of the score: the number of positions [i] below the
    common length at which [predicted_results[i] == targets[i]]. *)
Definition equal_at (predicted_results targets : list string) (i : nat) : bool :=
  match predicted_results !! i, targets !! i with
  | Some r, Some t => String.eqb r t
  | _, _ => false
  end.

Definition equal_positions (predicted_results targets : list string) : nat :=
  length (filter (fun i => equal_at predicted_results targets i = true)
                 (seq 0 (length predicted_results))).

(** The spec's [InvalidInput] condition, as an outcome of a call. *)
Definition fails_with_invalid_input (r : res response) : Prop :=
  match r with
  | Raise e => exn_cls e = OtherException "InvalidInput"
  | Ok _ => False
  end.

End ExactStrMatch.

(* ===================================================================== *)
(** * redteaming.py                                                       *)
(* ===================================================================== *)

Module RedTeaming.

(** One entry of [runner_args["attack_strategies"]].  A field is [None]
    when the key is absent, which is what [.get(key, default)] and
    [key in attack_strategy_args] look at. *)
Record attack_strategy_args : Type := mk_attack_strategy_args {
  attack_module_id : option string;
  prompt : option string;
  metric_ids : option (list string);
  context_strategy_ids : option (list string);
  dataset_ids : option (list string);
  prompt_template_ids : option (list string)
}.

Record runner_args : Type := mk_runner_args {
  ra_num_of_prompts : option Z;
  ra_system_prompt : option string;
  ra_attack_strategies : option (list attack_strategy_args)
}.

(** The one field of [SessionMetadata] that [generate] reads. *)
Record SessionMetadata : Type := mk_session_metadata {
  endpoints : list string
}.

(** [AttackModuleArguments(...)], lines 104-116. *)
Record AttackModuleArguments (Connector Metric ContextStrategy DBInterface : Type)
  : Type := mk_attack_module_arguments {
  name : string;
  num_of_prompts : Z;
  connector_instances : list Connector;
  datasets : list string;
  prompt_templates : list string;
  am_prompt : string;
  metric_instances : list Metric;
  context_strategies : list ContextStrategy;
  db_instance : DBInterface
}.
Arguments mk_attack_module_arguments {_ _ _ _}.
Arguments name {_ _ _ _}.
Arguments num_of_prompts {_ _ _ _}.
Arguments connector_instances {_ _ _ _}.
Arguments datasets {_ _ _ _}.
Arguments prompt_templates {_ _ _ _}.
Arguments am_prompt {_ _ _ _}.
Arguments metric_instances {_ _ _ _}.
Arguments context_strategies {_ _ _ _}.
Arguments db_instance {_ _ _ _}.

(** The collaborators that redteaming.py imports from [moonshot.src];
    none of them is among the sources, so [generate] is given for any
    implementation of them.  [World] is everything an attack module can
    read and write while it executes (session store, context windows, the
    endpoints, the clock); [Call] is an endpoint call made inside
    [execute]. *)
Class Collaborators : Type := {
  Endpoint : Type;
  Connector : Type;
  Metric : Type;
  ContextStrategy : Type;
  DBInterface : Type;
  AttackModule : Type;
  Response : Type;
  Call : Type;
  World : Type;
  ConnectorEndpoint_read : string -> res Endpoint;
  Connector_create : Endpoint -> res Connector;
  Metric_load : string -> res Metric;
  ContextStrategy_load : string -> res ContextStrategy;
  AttackModule_load :
    AttackModuleArguments Connector Metric ContextStrategy DBInterface ->
    res AttackModule;
  module_name : AttackModule -> string;
  execute : AttackModule -> World -> list Call * res Response * World;
  perf_counter : World -> Q
}.

Section Generate.

Context {C : Collaborators}.

Definition arguments : Type :=
  AttackModuleArguments Connector Metric ContextStrategy DBInterface.

(** What [generate] prints. *)
Inductive output : Type :=
| OutPart1
| OutUnableToLoad (e : exn)
| OutPart2
| OutStarting (module : string)
| OutTook (module : string) (seconds : Q).

(** What an observer of one call of [generate] sees, oldest first.  The
    index of the [Exec] events is the position of the module in
    [loaded_attack_modules]. *)
Inductive event : Type :=
| Print (o : output)
| LoadAttackModule (a : arguments)
| ExecBegin (i : nat)
| ExecCall (i : nat) (c : Call)
| ExecEnd (i : nat)
| ExecRaise (i : nat) (e : exn).

(** The attributes [generate] sets on [self], its two local lists, the
    world and the trace. *)
Record state : Type := mk_state {
  self_num_of_prompts : Z;
  self_system_prompt : string;
  self_attack_strategies_args : option (list attack_strategy_args);
  self_llm_connectors : list Connector;
  loaded_attack_modules : list AttackModule;
  responses_from_attack_module : list Response;
  world : World;
  trace : list event
}.

Definition init_state (w : World) : state :=
  {| self_num_of_prompts := 0;
     self_system_prompt := "";
     self_attack_strategies_args := None;
     self_llm_connectors := [];
     loaded_attack_modules := [];
     responses_from_attack_module := [];
     world := w;
     trace := [] |}.

Definition emit (ev : event) : M state unit :=
  modify (fun s =>
    mk_state (self_num_of_prompts s) (self_system_prompt s)
             (self_attack_strategies_args s) (self_llm_connectors s)
             (loaded_attack_modules s) (responses_from_attack_module s)
             (world s) (trace s ++ [ev])).

Definition set_self (n : Z) (sp : string)
           (asa : option (list attack_strategy_args)) : M state unit :=
  modify (fun s =>
    mk_state n sp asa (self_llm_connectors s)
             (loaded_attack_modules s) (responses_from_attack_module s)
             (world s) (trace s)).

Definition set_llm_connectors (cs : list Connector) : M state unit :=
  modify (fun s =>
    mk_state (self_num_of_prompts s) (self_system_prompt s)
             (self_attack_strategies_args s) cs
             (loaded_attack_modules s) (responses_from_attack_module s)
             (world s) (trace s)).

Definition set_loaded (l : list AttackModule) : M state unit :=
  modify (fun s =>
    mk_state (self_num_of_prompts s) (self_system_prompt s)
             (self_attack_strategies_args s) (self_llm_connectors s)
             l (responses_from_attack_module s)
             (world s) (trace s)).

Definition set_responses (l : list Response) : M state unit :=
  modify (fun s =>
    mk_state (self_num_of_prompts s) (self_system_prompt s)
             (self_attack_strategies_args s) (self_llm_connectors s)
             (loaded_attack_modules s) l
             (world s) (trace s)).

(** A Python [for x in xs: body(x)]. *)
Fixpoint for_each {S A} (body : A -> M S unit) (xs : list A) : M S unit :=
  match xs with
  | [] => ret tt
  | x :: xs' => (perform body x; for_each body xs')%py
  end.

(** Lines 78-81. *)
Definition load_connectors (eps : list string) : res (list Connector) :=
  comprehension
    (fun endpoint => res_bind (ConnectorEndpoint_read endpoint) Connector_create)
    eps.

(** Lines 85-116: the optional modules of one entry, then the
    [AttackModuleArguments] built from it. *)
Definition build_arguments (cs : list Connector) (db : DBInterface)
           (a : attack_strategy_args) : res arguments :=
  res_bind (match metric_ids a with
            | Some ids => comprehension Metric_load ids
            | None => Ok []
            end) (fun metric_instances =>
  res_bind (match context_strategy_ids a with
            | Some ids => comprehension ContextStrategy_load ids
            | None => Ok []
            end) (fun context_strategy_instances =>
  Ok {| name := default "" (attack_module_id a);
        num_of_prompts := 0;
        connector_instances := cs;
        datasets := default [] (dataset_ids a);
        prompt_templates := default [] (prompt_template_ids a);
        am_prompt := default "" (prompt a);
        metric_instances := metric_instances;
        context_strategies := context_strategy_instances;
        db_instance := db |})).

(** The body of the loop of lines 84-118. *)
Definition load_entry (db : DBInterface) (a : attack_strategy_args)
  : M state unit :=
  (do cs <- gets self_llm_connectors;
   do args <- lift (build_arguments cs db a);
   perform emit (LoadAttackModule args);
   do loaded_attack_module <- lift (AttackModule_load args);
   do loaded <- gets loaded_attack_modules;
   set_loaded (loaded ++ [loaded_attack_module]))%py.

(** [for x in None] *)
Definition iterate {A} (o : option (list A)) : res (list A) :=
  match o with
  | Some l => Ok l
  | None => Raise (mk_exn TypeError "'NoneType' object is not iterable")
  end.

(** Part 1, lines 74-121: one [try] around the connectors and the whole
    loop. *)
Definition part1 (ra : runner_args) (db : DBInterface) (sm : SessionMetadata)
  : M state unit :=
  (perform emit (Print OutPart1);
   perform set_loaded [];
   try_except
     (do cs <- lift (load_connectors (endpoints sm));
      perform set_llm_connectors cs;
      do entries <- lift (iterate (ra_attack_strategies ra));
      for_each (load_entry db) entries)
     (fun e => emit (Print (OutUnableToLoad e))))%py.

(** [await attack_module.execute()], line 133, for the module at position
    [i]: the module runs on the world to its end, returning or raising. *)
Definition await_execute (i : nat) (m : AttackModule) : M state Response :=
  fun s =>
    let '(calls, r, w') := execute m (world s) in
    (r,
     mk_state (self_num_of_prompts s) (self_system_prompt s)
              (self_attack_strategies_args s) (self_llm_connectors s)
              (loaded_attack_modules s) (responses_from_attack_module s)
              w'
              (trace s ++ ExecBegin i :: map (ExecCall i) calls
                       ++ [match r with
                           | Ok _ => ExecEnd i
                           | Raise e => ExecRaise i e
                           end])).

(** The loop of lines 129-138, from position [i] on. *)
Fixpoint run_modules (i : nat) (mods : list AttackModule) : M state unit :=
  match mods with
  | [] => ret tt
  | attack_module :: rest =>
      (perform emit (Print (OutStarting (module_name attack_module)));
       do start_time <- gets (fun s => perf_counter (world s));
       do attack_module_response <- await_execute i attack_module;
       do end_time <- gets (fun s => perf_counter (world s));
       perform emit (Print (OutTook (module_name attack_module)
                                (end_time - start_time)%Q));
       do responses <- gets responses_from_attack_module;
       perform set_responses (responses ++ [attack_module_response]);
       run_modules (S i) rest)%py
  end.

(** [RedTeaming.generate], lines 62-139.  The event loop is only stored. *)
Definition generate (ra : runner_args) (db : DBInterface)
           (sm : SessionMetadata) : M state (list (string * pyval)) :=
  (perform set_self (default 0 (ra_num_of_prompts ra))
                (default "" (ra_system_prompt ra))
                (ra_attack_strategies ra);
   perform part1 ra db sm;
   perform emit (Print OutPart2);
   perform set_responses [];
   do mods <- gets loaded_attack_modules;
   perform run_modules 0 mods;
   ret [])%py.

(** An entry resolves to the module that line 103 loads for it. *)
Definition resolve_entry (cs : list Connector) (db : DBInterface)
           (a : attack_strategy_args) : res AttackModule :=
  res_bind (build_arguments cs db a) AttackModule_load.

(** The module an event belongs to. *)
Definition event_module (ev : event) : option nat :=
  match ev with
  | ExecBegin i | ExecCall i _ | ExecEnd i | ExecRaise i _ => Some i
  | Print _ | LoadAttackModule _ => None
  end.

(** ** Observing a run *)

(** State [s] with other modules loaded and another trace. *)
Definition with_loaded (s : state) (l : list AttackModule)
           (t : list event) : state :=
  mk_state (self_num_of_prompts s) (self_system_prompt s)
           (self_attack_strategies_args s) (self_llm_connectors s)
           l (responses_from_attack_module s) (world s) t.

(** The attributes that lines 62-69 set from [runner_args], with the rest
    of the state given. *)
Definition configured_with (ra : runner_args) (cs : list Connector)
           (mods : list AttackModule) (rs : list Response) (w : World)
           (t : list event) : state :=
  mk_state (default 0 (ra_num_of_prompts ra)) (default "" (ra_system_prompt ra))
           (ra_attack_strategies ra) cs mods rs w t.

(** State [s] with other responses, another world and another trace. *)
Definition with_run (s : state) (rs : list Response) (w : World)
           (t : list event) : state :=
  mk_state (self_num_of_prompts s) (self_system_prompt s)
           (self_attack_strategies_args s) (self_llm_connectors s)
           (loaded_attack_modules s) rs w t.

(** The events of one execution that returns after [seconds]. *)
Definition returned_events (i : nat) (m : AttackModule) (calls : list Call)
           (seconds : Q) : list event :=
  [Print (OutStarting (module_name m)); ExecBegin i]
    ++ map (ExecCall i) calls
    ++ [ExecEnd i; Print (OutTook (module_name m) seconds)].

(** The events of one execution that raises. *)
Definition raised_events (i : nat) (m : AttackModule) (calls : list Call)
           (e : exn) : list event :=
  [Print (OutStarting (module_name m)); ExecBegin i]
    ++ map (ExecCall i) calls ++ [ExecRaise i e].

(** The modules [mods] execute one after the other from world [w], each
    returning; [rs] are their responses and [w'] is the world they leave. *)
Inductive runs_ok : World -> list AttackModule -> list Response -> World -> Prop :=
| runs_ok_nil w : runs_ok w [] [] w
| runs_ok_cons w m mods calls r w1 rs w2 :
    execute m w = (calls, Ok r, w1) ->
    runs_ok w1 mods rs w2 ->
    runs_ok w (m :: mods) (r :: rs) w2.

(** A monitor for "one module at a time, in order": nothing is executing
    and [next] is the position of the module to start, or the module at
    position [i] is executing, or a module has raised. *)
Inductive phase : Type :=
| Idle (next : nat)
| Running (i : nat)
| Aborted.

Definition step (p : phase) (ev : event) : option phase :=
  match p, ev with
  | Idle k, (Print _ | LoadAttackModule _) => Some (Idle k)
  | Idle k, ExecBegin i => if Nat.eqb i k then Some (Running k) else None
  | Running k, ExecCall i _ => if Nat.eqb i k then Some (Running k) else None
  | Running k, ExecEnd i => if Nat.eqb i k then Some (Idle (S k)) else None
  | Running k, ExecRaise i _ => if Nat.eqb i k then Some Aborted else None
  | _, _ => None
  end.

Fixpoint monitor (p : phase) (t : list event) : option phase :=
  match t with
  | [] => Some p
  | ev :: t' =>
      match step p ev with
      | Some p' => monitor p' t'
      | None => None
      end
  end.


(** An event that loads an attack module loads it with no prompts. *)
Definition zero_prompts (ev : event) : Prop :=
  match ev with
  | LoadAttackModule a => num_of_prompts a = 0
  | _ => True
  end.

(** C1 as the spec words it: the execution set is the configuration
    without the entries that fail to resolve. *)
Definition resolving_entries (cs : list Connector) (db : DBInterface)
           (entries : list attack_strategy_args) : list AttackModule :=
  omap (fun a => match resolve_entry cs db a with
                 | Ok m => Some m
                 | Raise _ => None
                 end) entries.

Definition failing_entries (cs : list Connector) (db : DBInterface)
           (entries : list attack_strategy_args) : list attack_strategy_args :=
  List.filter (fun a => match resolve_entry cs db a with
                        | Ok _ => false
                        | Raise _ => true
                        end) entries.

(** C2 as the spec words it: the run returns and every loaded module has
    begun to execute. *)
Definition failure_contained (out : res (list (string * pyval)) * state) : Prop :=
  (exists report, out.1 = Ok report)
  /\ forall i, (i < length (loaded_attack_modules out.2))%nat ->
               In (ExecBegin i) (trace out.2).

(** C4 as the spec words it, in its weakest reading: the returned
    dictionary has an entry whenever a module has produced a response. *)
Definition report_accounts_for_responses
           (out : res (list (string * pyval)) * state) : Prop :=
  responses_from_attack_module out.2 <> [] ->
  exists report, out.1 = Ok report /\ report <> [].

(** State [s] as it would be had lines 62-69 read [ra]. *)
Definition reconfigured (ra : runner_args) (s : state) : state :=
  configured_with ra (self_llm_connectors s) (loaded_attack_modules s)
                  (responses_from_attack_module s) (world s) (trace s).

(** An event that reports a failure. *)
Definition reports_failure (ev : event) : Prop :=
  match ev with
  | Print (OutUnableToLoad _) | ExecRaise _ _ => True
  | _ => False
  end.

End Generate.

End RedTeaming.

(* ===================================================================== *)
(** * session.py (command line interface)                                 *)
(* ===================================================================== *)

Module Cli.

(** The arguments of the [run_attack_module] command, as
    [automated_rt_session_args] (lines 692-741) parses them: two
    positionals and five optional flags, [None] when a flag is absent. *)
Record attack_args : Type := mk_attack_args {
  attack_module_id : string;
  prompt : string;
  system_prompt : option string;
  context_strategy : option string;
  num_of_prev_prompts : option string;
  prompt_template : option string;
  metric : option string
}.

(** What the CLI imports from [moonshot.api] and [moonshot.src], and the
    rendering done with [rich]; none of it is among the sources. *)
Class Api : Type := {
  World : Type;
  Runner : Type;
  api_load_runner : pyval -> World -> res Runner * World;
  run_red_teaming : Runner -> pyval -> World -> res unit * World;
  runner_close : Runner -> World -> res unit * World;
  api_load_session : pyval -> World -> res pyval * World;
  api_get_all_chats_from_session : pyval -> World -> res pyval * World;
  render_chat_panel : pyval -> pyval -> res string;
  DEFAULT_CONTEXT_STRATEGY_PROMPT : pyval
}.

(** The calls that leave the CLI, in the order they are made. *)
Inductive api_call : Type :=
| CallLoadRunner (runner_id : pyval)
| CallRunRedTeaming (runner_args : pyval)
| CallClose
| CallLoadSession (runner_id : pyval)
| CallGetAllChats (session_id : pyval).

Section Session.

Context {A : Api}.

(** The module-level dictionary [active_session], what was printed, the
    calls made and the world behind the API. *)
Record state : Type := mk_state {
  active_session : gmap string pyval;
  stdout : list string;
  calls : list api_call;
  world : World
}.

Definition print (line : string) : M state unit :=
  modify (fun s => mk_state (active_session s) (stdout s ++ [line])
                            (calls s) (world s)).

Definition set_active_session (m : gmap string pyval) : M state unit :=
  modify (fun s => mk_state m (stdout s) (calls s) (world s)).

(** A call through the API: logged, then run on the world. *)
Definition call {T} (c : api_call) (f : World -> res T * World) : M state T :=
  fun s =>
    let '(r, w') := f (world s) in
    (r, mk_state (active_session s) (stdout s) (calls s ++ [c]) w').

(** [bool(active_session)]: a dictionary is true when it has an entry. *)
Definition session_is_active (m : gmap string pyval) : bool :=
  match map_to_list m with
  | [] => false
  | _ :: _ => true
  end.

(** [active_session[key]] *)
Definition subscript (m : gmap string pyval) (key : string) : res pyval :=
  match m !! key with
  | Some v => Ok v
  | None => Raise (mk_exn KeyError ("'" ++ key ++ "'"))
  end.

(** [active_session.update(session_metadata)] *)
Definition dict_update (m : gmap string pyval) (v : pyval)
  : res (gmap string pyval) :=
  match v with
  | VDict d => Ok (foldl (fun acc kv => <[kv.1 := kv.2]> acc) m d)
  | _ => Raise (mk_exn TypeError "object is not a mapping")
  end.

(** [_reload_session], lines 601-611. *)
Definition _reload_session (runner_id : pyval) : M state unit :=
  try_except
    (do session_metadata <- call (CallLoadSession runner_id)
                                 (api_load_session runner_id);
     if negb (truthy session_metadata) then
       print "[Session] Cannot find a session with the existing Runner ID. Please try again."
     else
       (do sess <- gets active_session;
        do sess' <- lift (dict_update sess session_metadata);
        set_active_session sess'))%py
    (fun e => print ("[reload_session]: str(" ++ exn_str e ++ ")")).

(** [update_chat_display], lines 160-204. *)
Definition update_chat_display : M state unit :=
  (do sess <- gets active_session;
   if session_is_active sess then
     (do session_id <- lift (subscript sess "session_id");
      do list_of_endpoint_chats <-
         call (CallGetAllChats session_id)
              (api_get_all_chats_from_session session_id);
      perform set_active_session
            (<["list_of_endpoint_chats" := list_of_endpoint_chats]> sess);
      do title <- lift (subscript
                          (<["list_of_endpoint_chats" := list_of_endpoint_chats]> sess)
                          "session_id");
      do panel <- lift (render_chat_panel list_of_endpoint_chats title);
      print panel)
   else print "[red]There are no active session.[/red]")%py.

(** Lines 478-498 and 540-566: what both commands take from the session.
    The result is the pair [(prompt_template, context_strategy_info)]. *)
Definition session_strategy (sess : gmap string pyval)
  : res (list pyval * list pyval) :=
  res_bind (subscript sess "prompt_template") (fun pt_cond =>
  res_bind (if truthy pt_cond
            then res_bind (subscript sess "prompt_template")
                          (fun v => Ok [v])
            else Ok []) (fun prompt_template =>
  res_bind (subscript sess "context_strategy") (fun cs_cond =>
  res_bind (if truthy cs_cond
            then subscript sess "context_strategy"
            else Ok (VList [])) (fun context_strategy =>
  res_bind (subscript sess "context_strategy") (fun n_cond =>
  res_bind (if truthy n_cond
            then subscript sess "cs_num_of_prev_prompts"
            else Ok DEFAULT_CONTEXT_STRATEGY_PROMPT) (fun num_of_prev_prompts =>
  Ok (prompt_template,
      if truthy context_strategy
      then [VDict [("context_strategy_id", context_strategy);
                   ("num_of_prev_prompts", num_of_prev_prompts)]]
      else []))))))).

(** [x if x else d] on an optional flag. *)
Definition flag_truthy (o : option string) : bool :=
  match o with
  | Some s => truthy (VStr s)
  | None => false
  end.

Definition flag_value (o : option string) : pyval :=
  match o with
  | Some s => VStr s
  | None => VNone
  end.

(** Lines 536-580 of [run_attack_module]: the runner arguments. *)
Definition attack_runner_args (sess : gmap string pyval) (args : attack_args)
  : res pyval :=
  let attack_module_id := VStr (attack_module_id args) in
  let prompt := VStr (prompt args) in
  let system_prompt := if flag_truthy (system_prompt args)
                       then flag_value (system_prompt args) else VStr "" in
  res_bind (session_strategy sess) (fun '(prompt_template, context_strategy_info) =>
  let metric := if flag_truthy (metric args)
                then [flag_value (metric args)] else [] in
  let attack_strategy :=
    [VDict [("attack_module_id", attack_module_id);
            ("prompt", prompt);
            ("system_prompt", system_prompt);
            ("context_strategy_info", VList context_strategy_info);
            ("prompt_template_ids", VList prompt_template);
            ("metric_ids", VList metric)]] in
  Ok (VDict [("attack_strategies", VList attack_strategy)])).

(** Lines 584-588: load the runner, run, close, reload. *)
Definition run_with_runner (sess : gmap string pyval) (runner_args : pyval)
  : M state unit :=
  (do session_id <- lift (subscript sess "session_id");
   do runner <- call (CallLoadRunner session_id) (api_load_runner session_id);
   perform call (CallRunRedTeaming runner_args) (run_red_teaming runner runner_args);
   perform call CallClose (runner_close runner);
   do sess' <- gets active_session;
   do session_id' <- lift (subscript sess' "session_id");
   _reload_session session_id')%py.

(** [run_attack_module], lines 532-591. *)
Definition run_attack_module (args : attack_args) : M state unit :=
  (do sess <- gets active_session;
   if negb (session_is_active sess) then
     print "There is no active session. Activate a session to start red teaming."
   else
     try_except
       (do runner_args <- lift (attack_runner_args sess args);
        perform run_with_runner sess runner_args;
        update_chat_display)
       (fun e => print ("[run_attack_module]: str(" ++ exn_str e ++ ")")))%py.

(** [manual_red_teaming], lines 475-516.  The session is read before the
    [try], so a missing key raises out of the function. *)
Definition manual_red_teaming (user_prompt : string) : M state unit :=
  (do sess <- gets active_session;
   if negb (session_is_active sess) then
     print "There is no active session. Activate a session to start red teaming."
   else
     (do strategy <- lift (session_strategy sess);
      let mrt_arguments :=
        VDict [("manual_rt_args",
                VDict [("prompt", VStr user_prompt);
                       ("context_strategy_info", VList strategy.2);
                       ("prompt_template_ids", VList strategy.1)])] in
      try_except
        (run_with_runner sess mrt_arguments)
        (fun e => print ("[manual_red_teaming]: str(" ++ exn_str e ++ ")"))))%py.

(** ** Reading runner arguments back *)

(** [v[key]] on a dictionary value. *)
Fixpoint assoc (key : string) (d : list (string * pyval)) : option pyval :=
  match d with
  | [] => None
  | (k, v) :: d' => if String.eqb key k then Some v else assoc key d'
  end.

(** [runner_args["attack_strategies"][0][key]] *)
Definition attack_strategy_field (runner_args : pyval) (key : string)
  : option pyval :=
  match runner_args with
  | VDict d =>
      match assoc "attack_strategies" d with
      | Some (VList (VDict strategy :: _)) => assoc key strategy
      | _ => None
      end
  | _ => None
  end.


End Session.

End Cli.

(* ===================================================================== *)
(** * session.py: sessions and bookmarks                                  *)
(* ===================================================================== *)

Module Commands.

Import Cli.

(** The calls to the session and bookmark store, and the questions put to
    the user. *)
Inductive store_call : Type :=
| CallGetBookmark (name : pyval)
| CallInsertBookmark
    (name prompt response context_strategy prompt_template attack_module
     metric : pyval)
| CallDeleteBookmark (name : pyval)
| CallUpdatePromptTemplate (session_id prompt_template : pyval)
| CallUpdateContextStrategy (session_id context_strategy : pyval)
| CallDeleteSession (session_id : pyval)
| CallInput (question : string).

(** The rest of what session.py imports: the store behind [moonshot.api],
    [console.input] and Python's [str]. *)
Class Store {A : Api} : Type := {
  api_get_bookmark : pyval -> World -> res pyval * World;
  api_insert_bookmark :
    pyval -> pyval -> pyval -> pyval -> pyval -> pyval -> pyval ->
    World -> res pyval * World;
  api_delete_bookmark : pyval -> World -> res pyval * World;
  api_update_prompt_template : pyval -> pyval -> World -> res unit * World;
  api_update_context_strategy : pyval -> pyval -> World -> res unit * World;
  api_delete_session : pyval -> World -> res unit * World;
  console_input : string -> World -> string * World;
  py_str : pyval -> string
}.

(** The double quote character. *)
Definition dquote : string :=
  String (Ascii.Ascii false true false false false true false false) EmptyString.

(** [str.lower] on the ASCII letters. *)
Definition lower_ascii (c : Ascii.ascii) : Ascii.ascii :=
  let n := Ascii.nat_of_ascii c in
  if Nat.leb 65 n && Nat.leb n 90 then Ascii.ascii_of_nat (n + 32) else c.

Fixpoint lower (s : string) : string :=
  match s with
  | EmptyString => EmptyString
  | String c s' => String (lower_ascii c) (lower s')
  end.

(** [type(v).__name__] *)
Definition type_name (v : pyval) : string :=
  match v with
  | VNone => "NoneType"
  | VBool _ => "bool"
  | VInt _ => "int"
  | VStr _ => "str"
  | VList _ => "list"
  | VDict _ => "dict"
  end.

Fixpoint assoc (key : string) (d : list (string * pyval)) : option pyval :=
  match d with
  | [] => None
  | (k, v) :: d' => if String.eqb key k then Some v else assoc key d'
  end.

(** [v.get(key, None)] *)
Definition py_get (v : pyval) (key : string) : res pyval :=
  match v with
  | VDict d => Ok (default VNone (assoc key d))
  | _ => Raise (mk_exn (OtherException "AttributeError")
                  ("'" ++ type_name v ++ "' object has no attribute 'get'"))
  end.

(** [v[key]] for a string [key]. *)
Definition getitem (v : pyval) (key : string) : res pyval :=
  match v with
  | VDict d =>
      match assoc key d with
      | Some x => Ok x
      | None => Raise (mk_exn KeyError ("'" ++ key ++ "'"))
      end
  | VStr _ =>
      Raise (mk_exn TypeError "string indices must be integers, not 'str'")
  | VList _ =>
      Raise (mk_exn TypeError "list indices must be integers or slices, not str")
  | _ => Raise (mk_exn TypeError
                  ("'" ++ type_name v ++ "' object is not subscriptable"))
  end.

Fixpoint characters (s : string) : list pyval :=
  match s with
  | EmptyString => []
  | String c s' => VStr (String c EmptyString) :: characters s'
  end.

(** [for x in v] *)
Definition py_iter (v : pyval) : res (list pyval) :=
  match v with
  | VList l => Ok l
  | VDict d => Ok (map (fun kv => VStr kv.1) d)
  | VStr s => Ok (characters s)
  | _ => Raise (mk_exn TypeError
                  ("'" ++ type_name v ++ "' object is not iterable"))
  end.

(** [v == n] for an [int] [n]. *)
Definition eq_int (v : pyval) (n : Z) : bool :=
  match v with
  | VInt z => Z.eqb z n
  | VBool b => Z.eqb (if b then 1 else 0) n
  | _ => false
  end.

(** The loop of [bookmark_prompt], lines 241-245: the first record whose
    ["chat_record_id"] equals [prompt_id], or the empty dictionary. *)
Fixpoint find_record (prompt_id : Z) (chats : list pyval) : res pyval :=
  match chats with
  | [] => Ok (VDict [])
  | endpoint_chat :: rest =>
      res_bind (getitem endpoint_chat "chat_record_id") (fun id =>
      if eq_int id prompt_id then Ok endpoint_chat
      else find_record prompt_id rest)
  end.

(** A record that the loop of [bookmark_prompt] passes over. *)
Definition differs_from (prompt_id : Z) (chat : pyval) : Prop :=
  exists id, getitem chat "chat_record_id" = Ok id /\ eq_int id prompt_id = false.

Section Commands.

Context {A : Api} {St : Store}.

(** As [Cli.state], with the calls to the store logged among the others. *)
Record state : Type := mk_state {
  active_session : gmap string pyval;
  stdout : list string;
  calls : list (api_call + store_call);
  world : World
}.

Definition print (line : string) : M state unit :=
  modify (fun s => mk_state (active_session s) (stdout s ++ [line])
                            (calls s) (world s)).

Definition set_active_session (m : gmap string pyval) : M state unit :=
  modify (fun s => mk_state m (stdout s) (calls s) (world s)).

Definition call {T} (c : api_call + store_call)
           (f : World -> res T * World) : M state T :=
  fun s =>
    let '(r, w') := f (world s) in
    (r, mk_state (active_session s) (stdout s) (calls s ++ [c]) w').

(** [console.input(question)] *)
Definition input (question : string) : M state string :=
  fun s =>
    let '(answer, w') := console_input question (world s) in
    (Ok answer,
     mk_state (active_session s) (stdout s)
              (calls s ++ [inr (CallInput question)]) w').

(** A function of module [Cli], run on this state. *)
Definition from_cli {T} (m : M Cli.state T) : M state T :=
  fun s =>
    let '(r, c) := m (Cli.mk_state (active_session s) (stdout s) [] (world s)) in
    (r, mk_state (Cli.active_session c) (Cli.stdout c)
                 (calls s ++ map inl (Cli.calls c)) (Cli.world c)).

(** [end_session], lines 119-120. *)
Definition end_session : M state unit := set_active_session ∅.

(** [show_chats], lines 106-112. *)
Definition show_chats : M state unit :=
  (do sess <- gets active_session;
   if negb (session_is_active sess) then
     print "There is no active session. Activate a session to show a chat table."
   else from_cli update_chat_display)%py.

(** [use_session], lines 78-99. *)
Definition use_session (runner_id : string) : M state unit :=
  try_except
    (do session_metadata <- call (inl (CallLoadSession (VStr runner_id)))
                                 (api_load_session (VStr runner_id));
     if negb (truthy session_metadata) then
       print "[Session] Cannot find a session with the existing Runner ID. Please try again."
     else
       (do sess <- gets active_session;
        do sess1 <- lift (dict_update sess session_metadata);
        perform set_active_session sess1;
        do context_strategy <- lift (subscript sess1 "context_strategy");
        perform (if truthy context_strategy
                 then set_active_session
                        (<["cs_num_of_prev_prompts" := DEFAULT_CONTEXT_STRATEGY_PROMPT]> sess1)
                 else ret tt);
        do sess2 <- gets active_session;
        do session_id <- lift (subscript sess2 "session_id");
        perform print ("Using session: " ++ py_str session_id ++ ". ");
        from_cli update_chat_display))%py
    (fun e => print ("[use_session]: " ++ exn_str e)).

(** [bookmark_prompt], lines 223-266. *)
Definition bookmark_prompt (endpoint : string) (prompt_id : Z)
           (bookmark_name : string) : M state unit :=
  (do sess <- gets active_session;
   if session_is_active sess then
     try_except
       (let list_of_target_endpoint_chat :=
          default VNone (sess !! "list_of_endpoint_chats") in
        do target_endpoint_chats <-
           lift (py_get list_of_target_endpoint_chat endpoint);
        if negb (truthy target_endpoint_chats) then
          print "Incorrect endpoint. Please select a valid endpoint in this session."
        else
          (do chats <- lift (py_iter target_endpoint_chats);
           do target_endpoint_chat_record <- lift (find_record prompt_id chats);
           if truthy target_endpoint_chat_record then
             (do b_prompt <- lift (getitem target_endpoint_chat_record "prompt");
              do b_response <- lift (getitem target_endpoint_chat_record "predicted_result");
              do b_cs <- lift (getitem target_endpoint_chat_record "context_strategy");
              do b_pt <- lift (getitem target_endpoint_chat_record "prompt_template");
              do b_am <- lift (getitem target_endpoint_chat_record "attack_module");
              do b_metric <- lift (getitem target_endpoint_chat_record "metric");
              do bookmark_message <-
                 call (inr (CallInsertBookmark (VStr bookmark_name) b_prompt
                              b_response b_cs b_pt b_am b_metric))
                      (api_insert_bookmark (VStr bookmark_name) b_prompt
                         b_response b_cs b_pt b_am b_metric);
              do message <- lift (getitem bookmark_message "message");
              print ("[bookmark_prompt]: " ++ py_str message))
           else
             print ("Unable to find prompt ID in the of prompts for endpoint "
                      ++ endpoint ++ ". Please select a valid ID.")))
       (fun e => print ("[bookmark_prompt]: (" ++ exn_str e ++ ")"))
   else
     print "There is no active session. Activate a session to bookmark a prompt.")%py.

(** [active_session[key] = value] *)
Definition store_key (key : string) (value : pyval) : M state unit :=
  (do sess <- gets active_session;
   set_active_session (<[key := value]> sess))%py.

(** [active_session[key]] *)
Definition session_key (key : string) : M state pyval :=
  (do sess <- gets active_session; lift (subscript sess key))%py.

(** [use_bookmark], lines 283-329. *)
Definition use_bookmark (bookmark_name : string) : M state unit :=
  (do sess <- gets active_session;
   if session_is_active sess then
     try_except
       (do bookmark_details <- call (inr (CallGetBookmark (VStr bookmark_name)))
                                    (api_get_bookmark (VStr bookmark_name));
        if truthy bookmark_details then
          (do bookmarked_prompt <- lift (getitem bookmark_details "prompt");
           do bookmarked_pt <- lift (getitem bookmark_details "prompt_template");
           do bookmarked_cs <- lift (getitem bookmark_details "context_strategy");
           perform print ("[bold yellow]Updated session with bookmarked context strategy:[/] "
                            ++ py_str bookmarked_pt
                            ++ " [bold yellow]and prompt template:[/] "
                            ++ py_str bookmarked_cs ++ ".");
           do session_id <- session_key "session_id";
           do pt <- lift (getitem bookmark_details "prompt_template");
           perform call (inr (CallUpdatePromptTemplate session_id pt))
                        (api_update_prompt_template session_id pt);
           do session_id' <- session_key "session_id";
           do cs <- lift (getitem bookmark_details "context_strategy");
           perform call (inr (CallUpdateContextStrategy session_id' cs))
                        (api_update_context_strategy session_id' cs);
           do pt' <- lift (getitem bookmark_details "prompt_template");
           perform store_key "prompt_template" pt';
           do cs' <- lift (getitem bookmark_details "context_strategy");
           perform store_key "context_strategy" cs';
           do attack_module_cond <- lift (getitem bookmark_details "attack_module");
           if truthy attack_module_cond then
             (do attack_module <- lift (getitem bookmark_details "attack_module");
              print ("[bold yellow]Copy this command and paste it below:[/] "
                       ++ "run_attack_module " ++ py_str attack_module ++ " "
                       ++ dquote ++ py_str bookmarked_prompt ++ dquote))
           else
             print ("[bold yellow]Copy this prompt and paste it below: [/]"
                      ++ py_str bookmarked_prompt))
        else ret tt)
       (fun e => print ("[use_bookmark]: " ++ exn_str e))
   else
     print "There is no active session. Activate a session to use a bookmark.")%py.

(** [delete_bookmark], lines 350-360. *)
Definition delete_bookmark (bookmark_name : string) : M state unit :=
  (do confirmation <-
      input "[bold red]Are you sure you want to delete the bookmark (y/N)? [/]";
   if negb (String.eqb (lower confirmation) "y") then
     print "[bold yellow]Bookmark deletion cancelled.[/]"
   else
     try_except
       (do bookmark_message <-
           call (inr (CallDeleteBookmark (VStr bookmark_name)))
                (api_delete_bookmark (VStr bookmark_name));
        do message <- lift (getitem bookmark_message "message");
        print ("[delete_bookmark]: " ++ py_str message))
       (fun e => print ("[delete_bookmark]: " ++ exn_str e)))%py.

(** [delete_session], lines 623-633. *)
Definition delete_session (session : string) : M state unit :=
  (do confirmation <-
      input "[bold red]Are you sure you want to delete the session (y/N)? [/]";
   if negb (String.eqb (lower confirmation) "y") then
     print "[bold yellow]Session deletion cancelled.[/]"
   else
     try_except
       (perform call (inr (CallDeleteSession (VStr session)))
                     (api_delete_session (VStr session));
        print "[delete_session]: Session deleted.")
       (fun e => print ("[delete_session]: " ++ exn_str e)))%py.

(** The calls of a log that go to the store. *)
Definition store_calls (log : list (api_call + store_call)) : list store_call :=
  omap (fun c => match c with inr x => Some x | inl _ => None end) log.

End Commands.

End Commands.

(* ===================================================================== *)
(** * A small installation, to run the models on                          *)
(* ===================================================================== *)

Module Demo.

Import RedTeaming.

(** One endpoint, one metric, one context strategy and two attack modules
    are installed.  A module instance is the arguments it was loaded with;
    the world is the list of prompts sent so far. *)
Definition known (ids : list string) (what id : string) : res string :=
  if existsb (String.eqb id) ids then Ok id
  else Raise (mk_exn RuntimeError ("unknown " ++ what ++ ": " ++ id)).

Definition demo_arguments : Type := AttackModuleArguments string string string unit.

Definition demo_load (a : demo_arguments) : res demo_arguments :=
  res_bind (known ["sample_attack_module"; "crashing_attack_module"]
                  "attack module" (name a))
           (fun _ => Ok a).

Definition demo_execute (m : demo_arguments) (w : list string)
  : list string * res (list string) * list string :=
  if String.eqb (name m) "crashing_attack_module"
  then (connector_instances m,
        Raise (mk_exn RuntimeError "endpoint did not answer"),
        w ++ [am_prompt m])
  else (connector_instances m, Ok [am_prompt m], w ++ [am_prompt m]).

#[export] Instance demo_collaborators : Collaborators :=
  {| Endpoint := string;
     Connector := string;
     Metric := string;
     ContextStrategy := string;
     DBInterface := unit;
     AttackModule := demo_arguments;
     Response := list string;
     Call := string;
     World := list string;
     ConnectorEndpoint_read := known ["openai-gpt4"] "endpoint";
     Connector_create := fun ep => Ok ep;
     Metric_load := known ["exactstrmatch"] "metric";
     ContextStrategy_load := known ["add_previous_prompt"] "context strategy";
     AttackModule_load := demo_load;
     module_name := name;
     execute := demo_execute;
     perf_counter := fun w => inject_Z (Z.of_nat (length w)) |}.

Definition entry (module_id prompt_text : string) : attack_strategy_args :=
  {| attack_module_id := Some module_id;
     prompt := Some prompt_text;
     metric_ids := Some ["exactstrmatch"];
     context_strategy_ids := Some ["add_previous_prompt"];
     dataset_ids := None;
     prompt_template_ids := None |}.

Definition config (entries : list attack_strategy_args) : runner_args :=
  {| ra_num_of_prompts := Some 5;
     ra_system_prompt := Some "be helpful";
     ra_attack_strategies := Some entries |}.

Definition session : SessionMetadata := {| endpoints := ["openai-gpt4"] |}.

(** Three entries, the first of which names an attack module that is not
    installed. *)
Definition one_invalid_of_three : list attack_strategy_args :=
  [entry "no_such_module" "p0"; entry "sample_attack_module" "p1";
   entry "sample_attack_module" "p2"].

(** Three entries, the second of which names an attack module that is not
    installed. *)
Definition one_invalid_in_the_middle : list attack_strategy_args :=
  [entry "sample_attack_module" "p1"; entry "no_such_module" "p0";
   entry "sample_attack_module" "p2"].

(** Two entries that load; the first one raises while it executes. *)
Definition crash_then_sample : list attack_strategy_args :=
  [entry "crashing_attack_module" "p0"; entry "sample_attack_module" "p1"].

Definition two_samples : list attack_strategy_args :=
  [entry "sample_attack_module" "p0"; entry "sample_attack_module" "p1"].

Definition run (entries : list attack_strategy_args)
  : res (list (string * pyval)) * state :=
  generate (config entries) tt session (init_state []).

(** What [demo_load] yields for [entry module_id prompt_text]. *)
Definition loaded (module_id prompt_text : string) : demo_arguments :=
  {| name := module_id;
     num_of_prompts := 0;
     connector_instances := ["openai-gpt4"];
     datasets := [];
     prompt_templates := [];
     am_prompt := prompt_text;
     metric_instances := ["exactstrmatch"];
     context_strategies := ["add_previous_prompt"];
     db_instance := tt |}.



Definition unknown_module : exn :=
  mk_exn RuntimeError "unknown attack module: no_such_module".

Definition no_answer : exn :=
  mk_exn RuntimeError "endpoint did not answer".

(** The command line interface over a trivial API. *)
#[export] Instance demo_api : Cli.Api :=
  {| Cli.World := unit;
     Cli.Runner := pyval;
     Cli.api_load_runner := fun id w => (Ok id, w);
     Cli.run_red_teaming := fun _ _ w => (Ok tt, w);
     Cli.runner_close := fun _ w => (Ok tt, w);
     Cli.api_load_session := fun id w => (Ok (VDict [("session_id", id)]), w);
     Cli.api_get_all_chats_from_session := fun _ w => (Ok (VDict []), w);
     Cli.render_chat_panel := fun _ _ => Ok "panel";
     Cli.DEFAULT_CONTEXT_STRATEGY_PROMPT := VInt 5 |}.

Definition no_session : Cli.state :=
  Cli.mk_state ∅ [] [] tt.

Definition a_session : gmap string pyval :=
  <["session_id" := VStr "my-runner"]>
  (<["prompt_template" := VStr "mmlu"]>
  (<["context_strategy" := VStr "add_previous_prompt"]>
  (<["cs_num_of_prev_prompts" := VInt 5]> ∅))).

Definition in_session : Cli.state :=
  Cli.mk_state a_session [] [] tt.

Definition attack (c n : option string) : Cli.attack_args :=
  {| Cli.attack_module_id := "sample_attack_module";
     Cli.prompt := "this is my prompt";
     Cli.system_prompt := Some "test system prompt";
     Cli.context_strategy := c;
     Cli.num_of_prev_prompts := n;
     Cli.prompt_template := None;
     Cli.metric := Some "exactstrmatch" |}.

(** A session with an endpoint that is not installed. *)
Definition unreachable_session : SessionMetadata :=
  {| endpoints := ["openai-gpt4"; "no-such-endpoint"] |}.

(** Runner arguments without attack strategies, and with an empty list. *)
Definition no_strategies : runner_args :=
  {| ra_num_of_prompts := None;
     ra_system_prompt := None;
     ra_attack_strategies := None |}.

Definition empty_strategies : runner_args :=
  {| ra_num_of_prompts := None;
     ra_system_prompt := None;
     ra_attack_strategies := Some [] |}.

(** [config entries] with another system prompt and number of prompts. *)
Definition other_config (entries : list attack_strategy_args) : runner_args :=
  {| ra_num_of_prompts := Some 9;
     ra_system_prompt := Some "be rude";
     ra_attack_strategies := Some entries |}.

(** A run on any arguments and session, and the state in which a run that
    loaded no module ends. *)
Definition run_with (ra : runner_args) (sm : SessionMetadata)
  : res (list (string * pyval)) * state :=
  generate ra tt sm (init_state []).

Definition nothing_loaded (ra : runner_args) (cs : list string)
           (t : list event) : state :=
  configured_with ra cs [] [] [] t.

(** An API whose runner raises while it runs. *)
Definition timed_out : exn := mk_exn RuntimeError "timed out".

Definition failing_api : Cli.Api :=
  {| Cli.World := unit;
     Cli.Runner := pyval;
     Cli.api_load_runner := fun id w => (Ok id, w);
     Cli.run_red_teaming := fun _ _ w => (Raise timed_out, w);
     Cli.runner_close := fun _ w => (Ok tt, w);
     Cli.api_load_session := fun id w => (Ok (VDict [("session_id", id)]), w);
     Cli.api_get_all_chats_from_session := fun _ w => (Ok (VDict []), w);
     Cli.render_chat_panel := fun _ _ => Ok "panel";
     Cli.DEFAULT_CONTEXT_STRATEGY_PROMPT := VInt 5 |}.

(** A session without a prompt template. *)
Definition partial_session : gmap string pyval :=
  <["session_id" := VStr "my-runner"]> ∅.

(** A store over the trivial API: one bookmark, every update succeeds and
    the user answers no. *)
Definition a_bookmark : pyval :=
  VDict [("name", VStr "my-bookmark");
         ("prompt", VStr "bookmarked prompt");
         ("prompt_template", VStr "mmlu");
         ("context_strategy", VStr "add_previous_prompt");
         ("attack_module", VStr "")].

Definition str_of (v : pyval) : string :=
  match v with
  | VStr s => s
  | _ => "?"
  end.

Definition store_answering (answer : string) (update_context_strategy : res unit)
  : Commands.Store (A := demo_api) :=
  {| Commands.api_get_bookmark := fun _ w => (Ok a_bookmark, w);
     Commands.api_insert_bookmark :=
       fun _ _ _ _ _ _ _ w => (Ok (VDict [("message", VStr "bookmarked")]), w);
     Commands.api_delete_bookmark :=
       fun _ w => (Ok (VDict [("message", VStr "deleted")]), w);
     Commands.api_update_prompt_template := fun _ _ w => (Ok tt, w);
     Commands.api_update_context_strategy :=
       fun _ _ w => (update_context_strategy, w);
     Commands.api_delete_session := fun _ w => (Ok tt, w);
     Commands.console_input := fun _ w => (answer, w);
     Commands.py_str := str_of |}.

Definition demo_store : Commands.Store (A := demo_api) :=
  store_answering "n" (Ok tt).

Definition command_state (sess : gmap string pyval)
  : Commands.state (A := demo_api) :=
  Commands.mk_state sess [] [] tt.

Definition chat (id : Z) (prompt_text : string) : pyval :=
  VDict [("chat_record_id", VInt id);
         ("prompt", VStr prompt_text);
         ("predicted_result", VStr "an answer");
         ("context_strategy", VStr "");
         ("prompt_template", VStr "mmlu");
         ("attack_module", VStr "");
         ("metric", VStr "")].

(** A session whose chats are loaded; there are two records with id 2. *)
Definition chat_session : gmap string pyval :=
  <["list_of_endpoint_chats" :=
      VDict [("openai-gpt4",
              VList [chat 1 "first"; chat 2 "second"; chat 2 "third"])]]>
  a_session.

(** A session without a context strategy, as the store returns it. *)
Definition plain_session : gmap string pyval :=
  <["session_id" := VStr "my-runner"]>
  (<["prompt_template" := VStr ""]>
  (<["context_strategy" := VStr ""]> ∅)).

(** An API whose store has no session, and one whose store raises. *)
Definition not_found : exn := mk_exn RuntimeError "no such runner".

Definition api_loading (loaded : res pyval) : Cli.Api :=
  {| Cli.World := unit;
     Cli.Runner := pyval;
     Cli.api_load_runner := fun id w => (Ok id, w);
     Cli.run_red_teaming := fun _ _ w => (Ok tt, w);
     Cli.runner_close := fun _ w => (Ok tt, w);
     Cli.api_load_session := fun _ w => (loaded, w);
     Cli.api_get_all_chats_from_session := fun _ w => (Ok (VDict []), w);
     Cli.render_chat_panel := fun _ _ => Ok "panel";
     Cli.DEFAULT_CONTEXT_STRATEGY_PROMPT := VInt 5 |}.

Definition store_of (A : Cli.Api) : Commands.Store (A := A) :=
  {| Commands.api_get_bookmark := fun _ w => (Ok a_bookmark, w);
     Commands.api_insert_bookmark :=
       fun _ _ _ _ _ _ _ w => (Ok (VDict [("message", VStr "bookmarked")]), w);
     Commands.api_delete_bookmark :=
       fun _ w => (Ok (VDict [("message", VStr "deleted")]), w);
     Commands.api_update_prompt_template := fun _ _ w => (Ok tt, w);
     Commands.api_update_context_strategy := fun _ _ w => (Ok tt, w);
     Commands.api_delete_session := fun _ w => (Ok tt, w);
     Commands.console_input := fun _ w => ("n", w);
     Commands.py_str := str_of |}.

(** The session [a_session] with nine previous prompts. *)
Definition wide_session : gmap string pyval :=
  <["cs_num_of_prev_prompts" := VInt 9]> a_session.

Definition store_down : exn := mk_exn RuntimeError "store is down".

End Demo.

(* ===================================================================== *)
(** * Properties of exactstrmatch.py                                      *)
(* ===================================================================== *)

Module ExactStrMatchFacts.

Import ExactStrMatch.

Lemma equal_positions_nil_targets (predicted_results : list string) :
  equal_positions predicted_results [] = 0%nat.
Proof.
  unfold equal_positions.
  induction (seq 0 (length predicted_results)) as [|i l IH]; [reflexivity|].
  rewrite filter_cons_False; [exact IH|].
  unfold equal_at. destruct (predicted_results !! i); discriminate.
Qed.

Lemma equal_positions_cons (r t : string) (pr tg : list string) :
  equal_positions (r :: pr) (t :: tg)
  = ((if String.eqb r t then 1 else 0) + equal_positions pr tg)%nat.
Proof.
  unfold equal_positions. cbn [length seq].
  rewrite <- fmap_S_seq.
  assert (Htail :
    length (filter (fun i => equal_at (r :: pr) (t :: tg) i = true)
                   (S <$> seq 0 (length pr)))
    = length (filter (fun i => equal_at pr tg i = true) (seq 0 (length pr)))).
  { induction (seq 0 (length pr)) as [|i l IH]; [reflexivity|].
    rewrite fmap_cons.
    change (equal_at (r :: pr) (t :: tg) (S i)) with (equal_at pr tg i) in *.
    destruct (equal_at pr tg i) eqn:E.
    - rewrite !filter_cons_True by (try exact E;
        change (equal_at (r :: pr) (t :: tg) (S i)) with (equal_at pr tg i);
        exact E).
      cbn [length]. now rewrite IH.
    - rewrite !filter_cons_False by (try (rewrite E; discriminate);
        change (equal_at (r :: pr) (t :: tg) (S i)) with (equal_at pr tg i);
        rewrite E; discriminate).
      exact IH. }
  change (equal_at (r :: pr) (t :: tg) 0) with (String.eqb r t).
  destruct (String.eqb r t) eqn:E.
  - rewrite filter_cons_True by exact E. cbn [length]. now rewrite Htail.
  - rewrite filter_cons_False
      by (intros H; change (String.eqb r t = true) in H; congruence).
    now rewrite Htail.
Qed.

(** The loop counts what the spec counts. *)
Lemma count_loop_equal_positions (pr tg : list string) (c : Z) :
  count_loop (zip pr tg) c = c + Z.of_nat (equal_positions pr tg).
Proof.
  revert tg c. induction pr as [|r pr IH]; intros tg c.
  - cbn. unfold equal_positions. cbn. lia.
  - destruct tg as [|t tg].
    + rewrite equal_positions_nil_targets. cbn. lia.
    + cbn [zip count_loop]. rewrite IH, equal_positions_cons.
      destruct (String.eqb r t); lia.
Qed.

Lemma equal_positions_le (pr tg : list string) :
  (equal_positions pr tg <= length pr)%nat.
Proof.
  unfold equal_positions.
  etransitivity; [apply length_filter|]. now rewrite length_seq.
Qed.

Lemma ratio_in_unit_interval (c n : Z) :
  0 <= c <= n -> 0 < n ->
  (0 <= inject_Z c / inject_Z n)%Q /\ (inject_Z c / inject_Z n <= 1)%Q.
Proof.
  intros [Hc Hn] Hpos.
  assert (Hq : (inject_Z 0 < inject_Z n)%Q) by (rewrite <- Zlt_Qlt; exact Hpos).
  split.
  - apply Qle_shift_div_l; [exact Hq|].
    rewrite Qmult_0_l. change 0%Q with (inject_Z 0).
    rewrite <- Zle_Qle. exact Hc.
  - apply Qle_shift_div_r; [exact Hq|].
    rewrite Qmult_1_l. rewrite <- Zle_Qle. exact Hn.
Qed.

Lemma validate_output_score (q : Q) :
  validate_output [("exact_str_match", JNumber q)] output_schema = true.
Proof. reflexivity. Qed.

(** C3, as the code has it: on an empty [predicted_results] the call fails
    with the [ZeroDivisionError] of [correct / total], whatever the
    validator, the prompts and the targets are; and an empty
    [predicted_results] is the only input on which it does. *)
Theorem get_results_zero_division_iff_empty
        (validate : response -> schema -> bool)
        (prompts predicted_results targets : list string) :
  (length predicted_results = 0%nat ->
   get_results validate prompts predicted_results targets
   = Raise (mk_exn ZeroDivisionError "division by zero"))
  /\ (forall e,
         get_results validate prompts predicted_results targets = Raise e ->
         exn_cls e = ZeroDivisionError ->
         length predicted_results = 0%nat).
Proof.
  unfold get_results, truediv. split.
  - intros ->. reflexivity.
  - intros e.
    destruct (Z.eqb_spec (Z.of_nat (length predicted_results)) 0) as [E|_];
      [intros _ _; lia|].
    cbn [res_bind]. destruct (validate _ output_schema); [discriminate|].
    intros [= <-]. discriminate.
Qed.

Lemma get_results_zero_division_iff_empty_witness :
  length (@nil string) = 0%nat
  /\ get_results validate_output ["a prompt"] [] ["a target"]
     = Raise (mk_exn ZeroDivisionError "division by zero").
Proof.
  split; [reflexivity|].
  apply (proj1 (get_results_zero_division_iff_empty
                  validate_output ["a prompt"] [] ["a target"])).
  reflexivity.
Defined.

(** C3, as the spec words it, does not hold: on empty lists the failure of
    [get_results] is not an [InvalidInput], it is the arithmetic fault. *)
Lemma get_results_empty_not_invalid_input :
  ~ fails_with_invalid_input (get_results validate_output [] [] [])
  /\ exists e, get_results validate_output [] [] [] = Raise e
               /\ exn_cls e = ZeroDivisionError.
Proof.
  split.
  - cbn. discriminate.
  - eexists. split; reflexivity.
Qed.

(** C6: on sequences of equal nonzero length, [get_results] returns
    [{"exact_str_match": s}] where [s] is the number of positions at which
    the predicted result equals the target, divided by the length, and [s]
    lies between 0 and 1. *)
Theorem get_results_score (prompts predicted_results targets : list string) :
  length predicted_results = length targets ->
  length predicted_results <> 0%nat ->
  exists s : Q,
    get_results validate_output prompts predicted_results targets
    = Ok [("exact_str_match", JNumber s)]
    /\ s = (inject_Z (Z.of_nat (equal_positions predicted_results targets))
            / inject_Z (Z.of_nat (length predicted_results)))%Q
    /\ (0 <= s)%Q /\ (s <= 1)%Q.
Proof.
  intros _ Hlen.
  eexists. split; [|split; [reflexivity|]].
  - unfold get_results, truediv.
    rewrite count_loop_equal_positions.
    destruct (Z.eqb_spec (Z.of_nat (length predicted_results)) 0) as [E|_]; [lia|].
    cbn [res_bind]. rewrite validate_output_score. reflexivity.
  - apply ratio_in_unit_interval; [|lia].
    pose proof (equal_positions_le predicted_results targets). lia.
Qed.

Lemma get_results_score_witness :
  length ["a"; "b"; "c"] = length ["a"; "x"; "c"]
  /\ length ["a"; "b"; "c"] <> 0%nat
  /\ exists s : Q,
       get_results validate_output [] ["a"; "b"; "c"] ["a"; "x"; "c"]
       = Ok [("exact_str_match", JNumber s)]
       /\ s = (inject_Z (Z.of_nat (equal_positions ["a"; "b"; "c"] ["a"; "x"; "c"]))
               / inject_Z (Z.of_nat (length ["a"; "b"; "c"])))%Q
       /\ (0 <= s)%Q /\ (s <= 1)%Q.
Proof.
  split; [reflexivity|]. split; [discriminate|].
  apply (get_results_score [] ["a"; "b"; "c"] ["a"; "x"; "c"]);
    [reflexivity | discriminate].
Defined.



End ExactStrMatchFacts.

(* ===================================================================== *)
(** * Properties of redteaming.py                                         *)
(* ===================================================================== *)

Module RedTeamingFacts.

Import RedTeaming.

Section Facts.

Context {C : Collaborators}.

(** ** Part 1 *)

Lemma build_arguments_zero_prompts cs db a args :
  build_arguments cs db a = Ok args -> num_of_prompts args = 0.
Proof.
  unfold build_arguments. intros H.
  destruct (match metric_ids a with
            | Some ids => comprehension Metric_load ids
            | None => Ok []
            end); [|discriminate].
  destruct (match context_strategy_ids a with
            | Some ids => comprehension ContextStrategy_load ids
            | None => Ok []
            end); [|discriminate].
  cbn in H. injection H as <-. reflexivity.
Qed.

(** One turn of the loading loop. *)
Lemma load_entry_unfold db a s :
  load_entry db a s =
  match build_arguments (self_llm_connectors s) db a with
  | Raise e => (Raise e, s)
  | Ok args =>
      match AttackModule_load args with
      | Raise e =>
          (Raise e,
           with_loaded s (loaded_attack_modules s)
                       (trace s ++ [LoadAttackModule args]))
      | Ok m =>
          (Ok tt,
           with_loaded s (loaded_attack_modules s ++ [m])
                       (trace s ++ [LoadAttackModule args]))
      end
  end.
Proof.
  unfold load_entry, bind, gets, lift, emit, modify, set_loaded, with_loaded.
  destruct (build_arguments (self_llm_connectors s) db a) as [args|e];
    [|reflexivity].
  cbn. destruct (AttackModule_load args); reflexivity.
Qed.

(** The loading loop, whatever the entries are: it appends modules and
    events, and the modules are those of the first entries, in order. *)
Lemma for_each_load_entry_shape db entries s :
  exists r mods tr,
    for_each (load_entry db) entries s
    = (r, with_loaded s (loaded_attack_modules s ++ mods) (trace s ++ tr))
    /\ Forall2 (fun a m => resolve_entry (self_llm_connectors s) db a = Ok m)
               (take (length mods) entries) mods
    /\ Forall (fun ev => event_module ev = None /\ zero_prompts ev) tr.
Proof.
  revert s. induction entries as [|a entries IH]; intros s.
  - exists (Ok tt), [], []. cbn. rewrite !app_nil_r.
    split; [destruct s; reflexivity|]. split; constructor.
  - cbn [for_each]. unfold bind at 1. rewrite load_entry_unfold.
    destruct (build_arguments (self_llm_connectors s) db a) as [args|e] eqn:Hb.
    2:{ exists (Raise e), [], []. cbn. rewrite !app_nil_r.
        split; [destruct s; reflexivity|]. split; constructor. }
    pose proof (build_arguments_zero_prompts _ _ _ _ Hb) as Hz.
    destruct (AttackModule_load args) as [m|e] eqn:Hl.
    2:{ exists (Raise e), [], [LoadAttackModule args]. cbn. rewrite !app_nil_r.
        split; [reflexivity|]. split; [constructor|].
        constructor; [split; [reflexivity|exact Hz]|constructor]. }
    destruct (IH (with_loaded s (loaded_attack_modules s ++ [m])
                              (trace s ++ [LoadAttackModule args])))
      as (r & mods & tr & Heq & Hres & Htr).
    exists r, (m :: mods), (LoadAttackModule args :: tr).
    rewrite Heq. cbn -[take]. rewrite <- !app_assoc. cbn -[take].
    split; [reflexivity|]. split.
    + cbn. constructor; [|exact Hres].
      unfold resolve_entry. rewrite Hb. exact Hl.
    + constructor; [split; [reflexivity|exact Hz]|exact Htr].
Qed.

(** The loading loop on entries of which the first ones resolve and the
    next one does not: it stops there with the modules loaded so far. *)
Lemma for_each_load_entry_stops db pre bad post mods e s :
  Forall2 (fun a m => resolve_entry (self_llm_connectors s) db a = Ok m) pre mods ->
  resolve_entry (self_llm_connectors s) db bad = Raise e ->
  exists tr,
    for_each (load_entry db) (pre ++ bad :: post) s
    = (Raise e, with_loaded s (loaded_attack_modules s ++ mods) (trace s ++ tr)).
Proof.
  intros Hpre. revert s Hpre.
  induction pre as [|a pre IH] in mods |- *; intros s Hpre Hbad.
  - inversion Hpre; subst. cbn [app for_each]. unfold bind at 1.
    rewrite load_entry_unfold. unfold resolve_entry in Hbad.
    destruct (build_arguments (self_llm_connectors s) db bad) as [args|e'].
    + cbn in Hbad. rewrite Hbad. eexists. rewrite app_nil_r. reflexivity.
    + cbn in Hbad. injection Hbad as ->. exists [].
      rewrite !app_nil_r. destruct s; reflexivity.
  - inversion Hpre as [|? m ? mods' Ha Hrest]; subst.
    cbn [app for_each]. unfold bind at 1. rewrite load_entry_unfold.
    unfold resolve_entry in Ha.
    destruct (build_arguments (self_llm_connectors s) db a) as [args|e'];
      [|discriminate].
    cbn in Ha. rewrite Ha.
    destruct (IH mods' (with_loaded s (loaded_attack_modules s ++ [m])
                                    (trace s ++ [LoadAttackModule args]))
                 Hrest Hbad) as (tr & Heq).
    rewrite Heq. cbn. rewrite <- !app_assoc. eexists. reflexivity.
Qed.

(** Part 1 always completes: a failure is printed, not raised.  It leaves
    the world and the responses alone, emits no execution event, and the
    modules it loads are those of the first entries, in order. *)
Lemma part1_shape ra db sm s :
  exists cs mods tr,
    part1 ra db sm s
    = (Ok tt,
       mk_state (self_num_of_prompts s) (self_system_prompt s)
                (self_attack_strategies_args s) cs mods
                (responses_from_attack_module s) (world s) (trace s ++ tr))
    /\ Forall (fun ev => event_module ev = None /\ zero_prompts ev) tr
    /\ forall j m, mods !! j = Some m ->
         exists entries a,
           ra_attack_strategies ra = Some entries
           /\ entries !! j = Some a
           /\ resolve_entry cs db a = Ok m.
Proof.
  unfold part1, bind, emit, set_loaded, modify, try_except, lift,
    set_llm_connectors. cbn.
  destruct (load_connectors (endpoints sm)) as [cs|e].
  2:{ exists (self_llm_connectors s), [], [Print OutPart1; Print (OutUnableToLoad e)].
      cbn. rewrite <- app_assoc. split; [reflexivity|]. split.
      - repeat constructor.
      - intros j m Hj. rewrite lookup_nil in Hj. discriminate. }
  cbn. destruct (ra_attack_strategies ra) as [entries|]; cbn.
  2:{ eexists cs, [], [Print OutPart1; Print (OutUnableToLoad _)].
      rewrite <- app_assoc. split; [reflexivity|]. split.
      - repeat constructor.
      - intros j m Hj. rewrite lookup_nil in Hj. discriminate. }
  match goal with
  | |- context [for_each (load_entry db) entries ?s0] =>
      destruct (for_each_load_entry_shape db entries s0)
        as (r & mods & tr & Heq & Hres & Htr); rewrite Heq
  end.
  cbn in Hres.
  assert (Hfrom : forall j m, mods !! j = Some m ->
            exists entries' a, Some entries = Some entries'
              /\ entries' !! j = Some a /\ resolve_entry cs db a = Ok m).
  { intros j m Hj.
    destruct (Forall2_lookup_r _ _ _ _ _ Hres Hj) as (a & Ha & Hr).
    exists entries, a. split; [reflexivity|]. split; [|exact Hr].
    apply lookup_take_Some in Ha. tauto. }
  destruct r as [[]|e]; cbn.
  - exists cs, mods, (Print OutPart1 :: tr).
    rewrite <- app_assoc. split; [reflexivity|]. split; [|exact Hfrom].
    constructor; [split; [reflexivity|exact I]|exact Htr].
  - exists cs, mods, (Print OutPart1 :: tr ++ [Print (OutUnableToLoad e)]).
    rewrite <- !app_assoc. split; [reflexivity|]. split; [|exact Hfrom].
    constructor; [split; [reflexivity|exact I]|].
    apply Forall_app. split; [exact Htr|]. repeat constructor.
Qed.

(** Part 1 on a configuration whose first entries resolve and whose
    next entry does not. *)
Lemma part1_stops ra db sm s cs pre bad post mods e :
  load_connectors (endpoints sm) = Ok cs ->
  ra_attack_strategies ra = Some (pre ++ bad :: post) ->
  Forall2 (fun a m => resolve_entry cs db a = Ok m) pre mods ->
  resolve_entry cs db bad = Raise e ->
  exists tr,
    part1 ra db sm s
    = (Ok tt,
       mk_state (self_num_of_prompts s) (self_system_prompt s)
                (self_attack_strategies_args s) cs mods
                (responses_from_attack_module s) (world s)
                (trace s ++ tr ++ [Print (OutUnableToLoad e)])).
Proof.
  intros Hcs Hentries Hpre Hbad.
  unfold part1, bind, emit, set_loaded, modify, try_except, lift,
    set_llm_connectors. cbn.
  rewrite Hcs, Hentries. cbn.
  match goal with
  | |- context [for_each (load_entry db) _ ?s0] =>
      destruct (for_each_load_entry_stops db pre bad post mods e s0 Hpre Hbad)
        as (tr & Heq); rewrite Heq
  end.
  cbn. exists (Print OutPart1 :: tr). rewrite <- !app_assoc. reflexivity.
Qed.

(** ** The monitor *)

Lemma monitor_app p t1 t2 :
  monitor p (t1 ++ t2)
  = match monitor p t1 with
    | Some q => monitor q t2
    | None => None
    end.
Proof.
  revert p. induction t1 as [|ev t1 IH]; intros p; [reflexivity|].
  cbn. destruct (step p ev); [apply IH|reflexivity].
Qed.

Lemma monitor_calls i calls :
  monitor (Running i) (map (ExecCall i) calls) = Some (Running i).
Proof.
  induction calls as [|c calls IH]; [reflexivity|].
  cbn. rewrite Nat.eqb_refl. exact IH.
Qed.

Lemma monitor_returned i m calls d :
  monitor (Idle i) (returned_events i m calls d) = Some (Idle (S i)).
Proof.
  unfold returned_events. cbn. rewrite Nat.eqb_refl.
  rewrite monitor_app, monitor_calls. cbn. now rewrite Nat.eqb_refl.
Qed.

Lemma monitor_raised i m calls e :
  monitor (Idle i) (raised_events i m calls e) = Some Aborted.
Proof.
  unfold raised_events. cbn. rewrite Nat.eqb_refl.
  rewrite monitor_app, monitor_calls. cbn. now rewrite Nat.eqb_refl.
Qed.





(** ** Part 2 *)

(** One turn of the execution loop. *)
Lemma run_modules_cons i m rest s :
  run_modules i (m :: rest) s =
  match execute m (world s) with
  | (calls, Ok r, w') =>
      run_modules (S i) rest
        (with_run s (responses_from_attack_module s ++ [r]) w'
           (trace s ++ returned_events i m calls
                         (perf_counter w' - perf_counter (world s))%Q))
  | (calls, Raise e, w') =>
      (Raise e,
       with_run s (responses_from_attack_module s) w'
                (trace s ++ raised_events i m calls e))
  end.
Proof.
  cbn [run_modules].
  unfold bind, emit, gets, modify, set_responses, await_execute, with_run,
    returned_events, raised_events. cbn.
  destruct (execute m (world s)) as [[calls [r|e]] w']; cbn.
  - f_equal. f_equal. rewrite <- !app_assoc. cbn. rewrite <- !app_assoc.
    reflexivity.
  - f_equal. f_equal. rewrite <- !app_assoc. reflexivity.
Qed.

Lemma with_run_id s :
  with_run s (responses_from_attack_module s) (world s) (trace s) = s.
Proof. destruct s; reflexivity. Qed.

Lemma in_returned_events k i m calls d :
  In (ExecBegin k) (returned_events i m calls d) -> k = i.
Proof.
  unfold returned_events. cbn. intros [H|[H|H]]; [discriminate|congruence|].
  apply in_app_or in H as [H|H].
  - apply in_map_iff in H as (c & Hc & _). discriminate.
  - cbn in H. destruct H as [H|[H|[]]]; discriminate.
Qed.

Lemma in_raised_events k i m calls e :
  In (ExecBegin k) (raised_events i m calls e) -> k = i.
Proof.
  unfold raised_events. cbn. intros [H|[H|H]]; [discriminate|congruence|].
  apply in_app_or in H as [H|H].
  - apply in_map_iff in H as (c & Hc & _). discriminate.
  - cbn in H. destruct H as [H|[]]; discriminate.
Qed.

Lemma zero_prompts_returned i m calls d :
  Forall zero_prompts (returned_events i m calls d).
Proof.
  unfold returned_events. repeat (apply Forall_app; split);
    try (repeat constructor).
  apply Forall_forall. intros ev Hev.
  apply list_elem_of_In, in_map_iff in Hev as (c & <- & _). exact I.
Qed.

Lemma zero_prompts_raised i m calls e :
  Forall zero_prompts (raised_events i m calls e).
Proof.
  unfold raised_events. repeat (apply Forall_app; split);
    try (repeat constructor).
  apply Forall_forall. intros ev Hev.
  apply list_elem_of_In, in_map_iff in Hev as (c & <- & _). exact I.
Qed.

(** The execution loop, whatever the modules do: it only appends
    responses and events, the monitor accepts the events, and the modules
    that begin are those of the list. *)
Lemma run_modules_shape mods i s :
  exists r rs w tr,
    run_modules i mods s
    = (r, with_run s (responses_from_attack_module s ++ rs) w (trace s ++ tr))
    /\ monitor (Idle i) tr
       = Some (match r with
               | Ok _ => Idle (i + length mods)
               | Raise _ => Aborted
               end)
    /\ Forall zero_prompts tr
    /\ forall k, In (ExecBegin k) tr -> (i <= k < i + length mods)%nat.
Proof.
  revert i s. induction mods as [|m mods IH]; intros i s.
  - exists (Ok tt), [], (world s), []. cbn. rewrite !app_nil_r, with_run_id.
    split; [reflexivity|]. split; [f_equal; f_equal; lia|].
    split; [constructor|]. intros k [].
  - rewrite run_modules_cons.
    destruct (execute m (world s)) as [[calls [r|e]] w'].
    + match goal with
      | |- context [run_modules (S i) mods ?s1] =>
          destruct (IH (S i) s1) as (r' & rs & w & tr & Heq & Hmon & Hz & Hin);
          rewrite Heq
      end.
      cbn [with_run responses_from_attack_module trace world
           self_num_of_prompts self_system_prompt self_attack_strategies_args
           self_llm_connectors loaded_attack_modules].
      exists r', (r :: rs), w,
        (returned_events i m calls (perf_counter w' - perf_counter (world s))%Q
           ++ tr).
      rewrite <- !app_assoc. split; [reflexivity|]. split.
      { rewrite monitor_app, monitor_returned, Hmon.
        destruct r'; [|reflexivity]. cbn. f_equal. f_equal. lia. }
      split; [apply Forall_app; split; [apply zero_prompts_returned|exact Hz]|].
      intros k Hk. apply in_app_or in Hk as [Hk|Hk].
      * apply in_returned_events in Hk. cbn. lia.
      * apply Hin in Hk. cbn. lia.
    + exists (Raise e), [], w', (raised_events i m calls e).
      rewrite app_nil_r. split; [reflexivity|].
      split; [apply monitor_raised|].
      split; [apply zero_prompts_raised|].
      intros k Hk. apply in_raised_events in Hk. cbn. lia.
Qed.

(** The execution loop on modules that all return. *)
Lemma run_modules_runs_ok mods i s rs w' :
  runs_ok (world s) mods rs w' ->
  exists tr,
    run_modules i mods s
    = (Ok tt, with_run s (responses_from_attack_module s ++ rs) w'
                       (trace s ++ tr))
    /\ (forall k, In (ExecBegin k) tr -> (i <= k < i + length mods)%nat)
    /\ (forall k, (k < length mods)%nat -> In (ExecBegin (i + k)) tr)
    /\ (forall k m, mods !! k = Some m ->
          exists d, In (Print (OutTook (module_name m) d)) tr).
Proof.
  revert i s rs. induction mods as [|m mods IH]; intros i s rs Hok.
  - inversion Hok; subst. exists []. cbn. rewrite !app_nil_r, with_run_id.
    split; [reflexivity|]. split; [intros k []|]. split; [intros k Hk; lia|].
    intros k m Hk. rewrite lookup_nil in Hk. discriminate.
  - inversion Hok as [|? ? ? calls r w1 rs' ? Hex Hrest]; subst.
    rewrite run_modules_cons, Hex.
    match goal with
    | |- context [run_modules (S i) mods ?s1] =>
        destruct (IH (S i) s1 rs' Hrest) as (tr & Heq & Hin & Hbegin & Htook);
        rewrite Heq
    end.
    cbn [with_run responses_from_attack_module trace world
         self_num_of_prompts self_system_prompt self_attack_strategies_args
         self_llm_connectors loaded_attack_modules].
    eexists (returned_events i m calls _ ++ tr).
    rewrite <- !app_assoc. split; [reflexivity|]. split; [|split].
    + intros k Hk. apply in_app_or in Hk as [Hk|Hk].
      * apply in_returned_events in Hk. cbn. lia.
      * apply Hin in Hk. cbn. lia.
    + intros [|k] Hk; apply in_or_app.
      * left. rewrite Nat.add_0_r. right. left. reflexivity.
      * right. replace (i + S k)%nat with (S i + k)%nat by lia.
        apply Hbegin. cbn in Hk. lia.
    + intros [|k] m' Hk; cbn in Hk.
      * injection Hk as <-. eexists. apply in_or_app. left.
        unfold returned_events. apply in_or_app. right.
        apply in_or_app. right. right. left. reflexivity.
      * destruct (Htook k m' Hk) as (d & Hd). exists d.
        apply in_or_app. right. exact Hd.
Qed.

Lemma run_modules_app i pre rest s :
  run_modules i (pre ++ rest) s =
  match run_modules i pre s with
  | (Ok _, s') => run_modules (i + length pre) rest s'
  | (Raise e, s') => (Raise e, s')
  end.
Proof.
  revert i s. induction pre as [|m pre IH]; intros i s.
  - cbn. f_equal. lia.
  - cbn [app]. rewrite !run_modules_cons.
    destruct (execute m (world s)) as [[calls [r|e]] w']; [|reflexivity].
    rewrite IH. cbn [length]. now replace (S i + length pre)%nat
      with (i + S (length pre))%nat by lia.
Qed.

(** ** The whole of [generate] *)

Lemma generate_unfold ra db sm s :
  generate ra db sm s =
  match part1 ra db sm
          (mk_state (default 0 (ra_num_of_prompts ra))
                    (default "" (ra_system_prompt ra))
                    (ra_attack_strategies ra) (self_llm_connectors s)
                    (loaded_attack_modules s) (responses_from_attack_module s)
                    (world s) (trace s)) with
  | (Ok _, s1) =>
      match run_modules 0 (loaded_attack_modules s1)
              (with_run s1 [] (world s1) (trace s1 ++ [Print OutPart2])) with
      | (Ok _, s3) => (Ok [], s3)
      | (Raise e, s3) => (Raise e, s3)
      end
  | (Raise e, s1) => (Raise e, s1)
  end.
Proof.
  unfold generate, bind at 1. unfold set_self, modify. unfold bind at 1.
  destruct (part1 ra db sm _) as [[[]|e] s1]; [|reflexivity].
  unfold bind, emit, set_responses, modify, gets, ret, with_run. cbn.
  destruct (run_modules 0 (loaded_attack_modules s1) _) as [[[]|e] s3];
    reflexivity.
Qed.

(** What every run of [generate] from a fresh state looks like: Part 1
    leaves modules [mods] and events [tr1], Part 2 adds responses [rs] and
    events [tr2]. *)
Lemma generate_shape ra db sm w :
  exists cs mods tr1 r rs w' tr2,
    generate ra db sm (init_state w)
    = (match r with Ok _ => Ok [] | Raise e => Raise e end,
       mk_state (default 0 (ra_num_of_prompts ra))
                (default "" (ra_system_prompt ra))
                (ra_attack_strategies ra) cs mods rs w'
                (tr1 ++ Print OutPart2 :: tr2))
    /\ Forall (fun ev => event_module ev = None /\ zero_prompts ev) tr1
    /\ (forall j m, mods !! j = Some m ->
          exists entries a,
            ra_attack_strategies ra = Some entries
            /\ entries !! j = Some a
            /\ resolve_entry cs db a = Ok m)
    /\ run_modules 0 mods
         (mk_state (default 0 (ra_num_of_prompts ra))
                   (default "" (ra_system_prompt ra))
                   (ra_attack_strategies ra) cs mods [] w
                   (tr1 ++ [Print OutPart2]))
       = (r, mk_state (default 0 (ra_num_of_prompts ra))
                      (default "" (ra_system_prompt ra))
                      (ra_attack_strategies ra) cs mods rs w'
                      (tr1 ++ Print OutPart2 :: tr2))
    /\ monitor (Idle 0) tr2
       = Some (match r with
               | Ok _ => Idle (length mods)
               | Raise _ => Aborted
               end)
    /\ Forall zero_prompts tr2
    /\ forall k, In (ExecBegin k) tr2 -> (k < length mods)%nat.
Proof.
  rewrite generate_unfold.
  match goal with
  | |- context [part1 ra db sm ?s0] =>
      destruct (part1_shape ra db sm s0) as (cs & mods & tr1 & Heq & Htr1 & Hfrom);
      rewrite Heq
  end.
  cbn in *.
  match goal with
  | |- context [run_modules 0 mods ?s2] =>
      destruct (run_modules_shape mods 0 s2)
        as (r & rs & w' & tr2 & Hrun & Hmon & Hz & Hin);
      rewrite Hrun
  end.
  unfold with_run in *. cbn in *. rewrite <- app_assoc in *. cbn in *.
  exists cs, mods, tr1, r, rs, w', tr2.
  split; [destruct r as [[]|]; reflexivity|].
  split; [exact Htr1|]. split; [exact Hfrom|].
  split; [exact Hrun|]. split; [exact Hmon|]. split; [exact Hz|].
  intros k Hk. apply Hin in Hk. lia.
Qed.

(** [generate] on a fresh instance, once Part 1 is known. *)
Lemma generate_after_part1 ra db sm w cs mods tr1 :
  part1 ra db sm (configured_with ra [] [] [] w [])
  = (Ok tt, configured_with ra cs mods [] w tr1) ->
  exists r rs w' tr2,
    generate ra db sm (init_state w)
    = (match r with Ok _ => Ok [] | Raise e => Raise e end,
       configured_with ra cs mods rs w' (tr1 ++ Print OutPart2 :: tr2))
    /\ run_modules 0 mods
         (configured_with ra cs mods [] w (tr1 ++ [Print OutPart2]))
       = (r, configured_with ra cs mods rs w' (tr1 ++ Print OutPart2 :: tr2))
    /\ forall k, In (ExecBegin k) tr2 -> (k < length mods)%nat.
Proof.
  intros Hpart1.
  destruct (run_modules_shape mods 0
              (configured_with ra cs mods [] w (tr1 ++ [Print OutPart2])))
    as (r & rs & w' & tr2 & Hrun & _ & _ & Hin).
  exists r, rs, w', tr2.
  assert (Hstate :
    with_run (configured_with ra cs mods [] w (tr1 ++ [Print OutPart2]))
             (responses_from_attack_module
                (configured_with ra cs mods [] w (tr1 ++ [Print OutPart2])) ++ rs)
             w'
             (trace (configured_with ra cs mods [] w (tr1 ++ [Print OutPart2]))
                ++ tr2)
    = configured_with ra cs mods rs w' (tr1 ++ Print OutPart2 :: tr2)).
  { unfold with_run, configured_with. cbn. now rewrite <- app_assoc. }
  rewrite Hstate in Hrun. clear Hstate.
  split; [|split; [exact Hrun|intros k Hk; apply Hin in Hk; lia]].
  rewrite generate_unfold.
  change (mk_state (default 0 (ra_num_of_prompts ra))
                   (default "" (ra_system_prompt ra))
                   (ra_attack_strategies ra)
                   (self_llm_connectors (init_state w))
                   (loaded_attack_modules (init_state w))
                   (responses_from_attack_module (init_state w))
                   (world (init_state w)) (trace (init_state w)))
    with (configured_with ra [] [] [] w []).
  rewrite Hpart1.
  change (loaded_attack_modules (configured_with ra cs mods [] w tr1)) with mods.
  change (with_run (configured_with ra cs mods [] w tr1) []
                   (world (configured_with ra cs mods [] w tr1))
                   (trace (configured_with ra cs mods [] w tr1) ++ [Print OutPart2]))
    with (configured_with ra cs mods [] w (tr1 ++ [Print OutPart2])).
  rewrite Hrun. destruct r as [[]|e]; reflexivity.
Qed.

(** C1, as the code has it: one [try] encloses the whole loading loop, so
    resolution stops at the first entry that fails to resolve.  The
    entries before it are loaded, in order; that entry and every entry
    after it are dropped; the failure is printed; no module beyond the
    loaded ones ever begins to execute; and when the loaded modules all
    return, each of them is executed. *)
Theorem resolution_stops_at_first_failure
        ra db sm w cs pre bad post mods e :
  load_connectors (endpoints sm) = Ok cs ->
  ra_attack_strategies ra = Some (pre ++ bad :: post) ->
  Forall2 (fun a m => resolve_entry cs db a = Ok m) pre mods ->
  resolve_entry cs db bad = Raise e ->
  loaded_attack_modules (generate ra db sm (init_state w)).2 = mods
  /\ length (loaded_attack_modules (generate ra db sm (init_state w)).2)
     = length pre
  /\ In (Print (OutUnableToLoad e)) (trace (generate ra db sm (init_state w)).2)
  /\ (forall k, In (ExecBegin k) (trace (generate ra db sm (init_state w)).2) ->
                (k < length pre)%nat)
  /\ (forall rs w',
         runs_ok w mods rs w' ->
         forall k, (k < length pre)%nat ->
                   In (ExecBegin k) (trace (generate ra db sm (init_state w)).2)).
Proof.
  intros Hcs Hentries Hpre Hbad.
  assert (Hlen : length mods = length pre)
    by (symmetry; eapply Forall2_length; exact Hpre).
  destruct (part1_stops ra db sm (configured_with ra [] [] [] w [])
                        cs pre bad post mods e Hcs Hentries Hpre Hbad)
    as (tr & Hstops).
  destruct (part1_shape ra db sm (configured_with ra [] [] [] w []))
    as (cs' & mods' & tr1 & Hshape & Htr1 & _).
  assert (Htr : tr1 = tr ++ [Print (OutUnableToLoad e)]).
  { rewrite Hstops in Hshape.
    apply (f_equal (fun out => trace out.2)) in Hshape. cbn in Hshape.
    congruence. }
  subst tr1. clear Hshape cs' mods'.
  destruct (generate_after_part1 ra db sm w cs mods
              (tr ++ [Print (OutUnableToLoad e)]) Hstops)
    as (r & rs & w' & tr2 & Hgen & Hrun & Hin).
  rewrite Hgen. cbn [snd]. unfold configured_with at 1 2 3 4 5.
  cbn [loaded_attack_modules trace].
  split; [reflexivity|]. split; [exact Hlen|]. split; [|split].
  - apply in_or_app. left. apply in_or_app. right. left. reflexivity.
  - intros k Hk. apply in_app_or in Hk as [Hk|[Hk|Hk]]; [|discriminate|].
    + rewrite Forall_forall in Htr1.
      apply list_elem_of_In, Htr1 in Hk as [Hk _]. discriminate.
    + apply Hin in Hk. lia.
  - intros rs0 w0 Hok k Hk.
    destruct (run_modules_runs_ok mods 0
                (configured_with ra cs mods []
                   w ((tr ++ [Print (OutUnableToLoad e)]) ++ [Print OutPart2]))
                rs0 w0 Hok)
      as (tr0 & Hall & _ & Hbegin & _).
    rewrite Hrun in Hall.
    apply (f_equal (fun out => trace out.2)) in Hall.
    unfold with_run, configured_with in Hall. cbn [snd trace] in Hall.
    rewrite <- !app_assoc in Hall. cbn [app] in Hall.
    apply app_inv_head in Hall. injection Hall as ->.
    apply in_or_app. right. right. apply (Hbegin k). lia.
Qed.

(** Part 2 has no handler, unlike Part 1, for any run: when the modules
    before [m] have returned and [m] raises, the exception leaves
    [generate]: nothing is returned, the responses collected are those of
    the modules before [m], and no later module begins to execute. *)
Theorem execution_failure_propagates
        ra db sm w pre m post rs w1 calls e w2 :
  loaded_attack_modules (generate ra db sm (init_state w)).2
  = pre ++ m :: post ->
  runs_ok w pre rs w1 ->
  execute m w1 = (calls, Raise e, w2) ->
  (generate ra db sm (init_state w)).1 = Raise e
  /\ responses_from_attack_module (generate ra db sm (init_state w)).2 = rs
  /\ world (generate ra db sm (init_state w)).2 = w2
  /\ In (ExecRaise (length pre) e) (trace (generate ra db sm (init_state w)).2)
  /\ forall k, In (ExecBegin k) (trace (generate ra db sm (init_state w)).2) ->
               (k <= length pre)%nat.
Proof.
  destruct (generate_shape ra db sm w)
    as (cs & mods & tr1 & r & rs' & w' & tr2
        & Hgen & Htr1 & _ & Hrun & _ & _ & _).
  rewrite Hgen. cbn [fst snd loaded_attack_modules responses_from_attack_module
                     world trace].
  intros -> Hok Hex.
  rewrite run_modules_app in Hrun.
  match type of Hrun with
  | context [run_modules 0 pre ?s2] =>
      destruct (run_modules_runs_ok pre 0 s2 rs w1 Hok) as (tr & Hpre & Hin & _ & _);
      rewrite Hpre in Hrun
  end.
  rewrite run_modules_cons in Hrun. cbn [with_run world] in Hrun.
  rewrite Hex in Hrun. cbn in Hrun.
  injection Hrun as <- <- <- Htr.
  rewrite <- !app_assoc in Htr. cbn in Htr.
  apply app_inv_head in Htr. injection Htr as <-.
  split; [reflexivity|]. split; [reflexivity|]. split; [reflexivity|]. split.
  - apply in_or_app. right. right. apply in_or_app. right. right. right.
    apply in_or_app. right. left. reflexivity.
  - intros k Hk. apply in_app_or in Hk as [Hk|[Hk|Hk]]; [|discriminate|].
    + rewrite Forall_forall in Htr1.
      apply list_elem_of_In, Htr1 in Hk as [Hk _]. discriminate.
    + apply in_app_or in Hk as [Hk|[Hk|[Hk|Hk]]]; [|discriminate| |].
      * apply Hin in Hk. lia.
      * injection Hk as <-. lia.
      * apply in_app_or in Hk as [Hk|[Hk|[]]]; [|discriminate].
        apply in_map_iff in Hk as (c & Hc & _). discriminate.
Qed.


(** Whenever [generate] returns, it returns the empty dictionary. *)
Lemma generate_returns_empty ra db sm w report :
(generate ra db sm (init_state w)).1 = Ok report -> report = [].
Proof.
destruct (generate_shape ra db sm w)
  as (cs & mods & tr1 & r & rs & w' & tr2 & Hgen & _).
rewrite Hgen. cbn [fst]. destruct r; [intros [= <-]; reflexivity|discriminate].
Qed.

(** C9: every [AttackModuleArguments] that [generate] constructs has
    [num_of_prompts] 0, whatever [runner_args] holds under
    ["num_of_prompts"]; that value is only stored on [self]. *)
Theorem constructed_arguments_have_zero_prompts ra db sm w a :
  In (LoadAttackModule a) (trace (generate ra db sm (init_state w)).2) ->
  num_of_prompts a = 0
  /\ self_num_of_prompts (generate ra db sm (init_state w)).2
     = default 0 (ra_num_of_prompts ra).
Proof.
  destruct (generate_shape ra db sm w)
    as (cs & mods & tr1 & r & rs & w' & tr2
        & Hgen & Htr1 & _ & _ & _ & Htr2 & _).
  rewrite Hgen. cbn [snd trace self_num_of_prompts].
  intros Hin. split; [|reflexivity].
  apply in_app_or in Hin as [Hin|[Hin|Hin]]; [|discriminate|].
  - rewrite Forall_forall in Htr1.
    apply list_elem_of_In, Htr1 in Hin as [_ Hz]. exact Hz.
  - rewrite Forall_forall in Htr2.
    apply list_elem_of_In, Htr2 in Hin. exact Hin.
Qed.

End Facts.

(** ** The demo installation *)

(** C1 as the spec words it fails: of these three entries exactly one does
    not resolve, the other two do, and yet no module is loaded or executed,
    because the failing entry comes first. *)
Lemma one_invalid_entry_of_three_drops_all :
  length Demo.one_invalid_of_three = 3%nat
  /\ length (failing_entries (C := Demo.demo_collaborators)
               ["openai-gpt4"] tt Demo.one_invalid_of_three) = 1%nat
  /\ length (resolving_entries (C := Demo.demo_collaborators)
               ["openai-gpt4"] tt Demo.one_invalid_of_three) = 2%nat
  /\ loaded_attack_modules (Demo.run Demo.one_invalid_of_three).2 = []
  /\ loaded_attack_modules (Demo.run Demo.one_invalid_of_three).2
     <> resolving_entries (C := Demo.demo_collaborators)
          ["openai-gpt4"] tt Demo.one_invalid_of_three
  /\ (Demo.run Demo.one_invalid_of_three).1 = Ok []
  /\ forall k, ~ In (ExecBegin k) (trace (Demo.run Demo.one_invalid_of_three).2).
Proof.
  repeat split; try reflexivity.
  - vm_compute. discriminate.
  - intros k H. vm_compute in H.
    repeat (destruct H as [H|H]; [discriminate|]). exact H.
Qed.

Lemma resolution_stops_at_first_failure_witness :
  loaded_attack_modules (Demo.run Demo.one_invalid_in_the_middle).2
  = [Demo.loaded "sample_attack_module" "p1"]
  /\ length (loaded_attack_modules (Demo.run Demo.one_invalid_in_the_middle).2)
     = length [Demo.entry "sample_attack_module" "p1"]
  /\ In (Print (OutUnableToLoad Demo.unknown_module))
        (trace (Demo.run Demo.one_invalid_in_the_middle).2)
  /\ (forall k,
        In (ExecBegin k) (trace (Demo.run Demo.one_invalid_in_the_middle).2) ->
        (k < length [Demo.entry "sample_attack_module" "p1"])%nat)
  /\ (forall rs w',
        runs_ok (C := Demo.demo_collaborators) []
                [Demo.loaded "sample_attack_module" "p1"] rs w' ->
        forall k,
          (k < length [Demo.entry "sample_attack_module" "p1"])%nat ->
          In (ExecBegin k) (trace (Demo.run Demo.one_invalid_in_the_middle).2)).
Proof.
  apply (resolution_stops_at_first_failure (C := Demo.demo_collaborators)
           (Demo.config Demo.one_invalid_in_the_middle)
           tt Demo.session [] ["openai-gpt4"]
           [Demo.entry "sample_attack_module" "p1"]
           (Demo.entry "no_such_module" "p0")
           [Demo.entry "sample_attack_module" "p2"]
           [Demo.loaded "sample_attack_module" "p1"]
           Demo.unknown_module).
  - reflexivity.
  - reflexivity.
  - constructor; [reflexivity|constructor].
  - reflexivity.
Defined.

(** C2: the failure of one module is not contained, against the claim and
    against the docstring of [generate] ("It handles any errors encountered
    during the session and returns the results in a dictionary format").
    Both entries load, the first module raises while it executes, and then
    [generate] raises instead of returning and the second module never
    begins. *)
Lemma crash_aborts_the_queue :
  ~ failure_contained (Demo.run Demo.crash_then_sample)
  /\ length (loaded_attack_modules (Demo.run Demo.crash_then_sample).2) = 2%nat
  /\ (Demo.run Demo.crash_then_sample).1 = Raise Demo.no_answer
  /\ ~ In (ExecBegin 1) (trace (Demo.run Demo.crash_then_sample).2).
Proof.
  split; [|split; [reflexivity|split; [reflexivity|]]].
  - intros [[report H] _]. vm_compute in H. discriminate.
  - intros H. vm_compute in H.
    repeat (destruct H as [H|H]; [discriminate|]). exact H.
Qed.

Lemma execution_failure_propagates_witness :
  (Demo.run Demo.crash_then_sample).1 = Raise Demo.no_answer
  /\ responses_from_attack_module (Demo.run Demo.crash_then_sample).2 = []
  /\ world (Demo.run Demo.crash_then_sample).2 = ["p0"]
  /\ In (ExecRaise 0 Demo.no_answer) (trace (Demo.run Demo.crash_then_sample).2)
  /\ forall k, In (ExecBegin k) (trace (Demo.run Demo.crash_then_sample).2) ->
               (k <= 0)%nat.
Proof.
  apply (execution_failure_propagates (C := Demo.demo_collaborators)
           (Demo.config Demo.crash_then_sample) tt Demo.session []
           [] (Demo.loaded "crashing_attack_module" "p0")
           [Demo.loaded "sample_attack_module" "p1"]
           [] [] ["openai-gpt4"] Demo.no_answer ["p0"]).
  - reflexivity.
  - constructor.
  - reflexivity.
Defined.

(** C4, on a run in which nothing fails: both modules respond, and the
    dictionary that [generate] returns is empty; the responses stay in the
    local list and the durations are only printed. *)
Theorem generate_discards_responses :
  (Demo.run Demo.two_samples).1 = Ok []
  /\ responses_from_attack_module (Demo.run Demo.two_samples).2
     = [["p0"]; ["p1"]]
  /\ ~ report_accounts_for_responses (Demo.run Demo.two_samples).
Proof.
  split; [reflexivity|]. split; [reflexivity|].
  intros H. destruct H as (report & Hr & Hne).
  - vm_compute. discriminate.
  - vm_compute in Hr. injection Hr as <-. apply Hne. reflexivity.
Qed.


Lemma constructed_arguments_have_zero_prompts_witness :
  ra_num_of_prompts (Demo.config Demo.two_samples) = Some 5
  /\ num_of_prompts (Demo.loaded "sample_attack_module" "p0") = 0
  /\ self_num_of_prompts (Demo.run Demo.two_samples).2 = 5.
Proof.
  split; [reflexivity|].
  apply (constructed_arguments_have_zero_prompts (C := Demo.demo_collaborators)
           (Demo.config Demo.two_samples) tt Demo.session []
           (Demo.loaded "sample_attack_module" "p0")).
  vm_compute. right. left. reflexivity.
Defined.

End RedTeamingFacts.

(* ===================================================================== *)
(** * Properties of session.py                                            *)
(* ===================================================================== *)

Module CliFacts.

Import Cli.

Section Facts.

Context {A : Api}.

Lemma session_is_active_empty : session_is_active ∅ = false.
Proof. unfold session_is_active. now rewrite map_to_list_empty. Qed.



(** C10: without an active session, [manual_red_teaming] and
    [run_attack_module] print the message and return: the session
    dictionary, the list of API calls and the world are as before. *)
Theorem no_active_session_returns_at_once
        (s : state) (user_prompt : string) (args : attack_args) :
  active_session s = ∅ ->
  manual_red_teaming user_prompt s
  = (Ok tt,
     mk_state (active_session s)
              (stdout s ++ ["There is no active session. Activate a session to start red teaming."])
              (calls s) (world s))
  /\ run_attack_module args s
     = (Ok tt,
        mk_state (active_session s)
                 (stdout s ++ ["There is no active session. Activate a session to start red teaming."])
                 (calls s) (world s)).
Proof.
  intros Hs.
  assert (Hnone : session_is_active (active_session s) = false)
    by (rewrite Hs; apply session_is_active_empty).
  unfold manual_red_teaming, run_attack_module, bind, gets.
  rewrite Hnone. split; reflexivity.
Qed.

End Facts.

Lemma no_active_session_returns_at_once_witness :
  active_session Demo.no_session = ∅
  /\ manual_red_teaming "hello" Demo.no_session
     = (Ok tt,
        mk_state (A := Demo.demo_api) ∅
                 ["There is no active session. Activate a session to start red teaming."]
                 [] tt)
  /\ run_attack_module (Demo.attack None None) Demo.no_session
     = (Ok tt,
        mk_state (A := Demo.demo_api) ∅
                 ["There is no active session. Activate a session to start red teaming."]
                 [] tt).
Proof.
  split; [reflexivity|].
  apply (no_active_session_returns_at_once (A := Demo.demo_api)
           Demo.no_session "hello" (Demo.attack None None)).
  reflexivity.
Defined.

(** In a session, the flags [-c] and [-n] change nothing, and the runner is
    called with the session's context strategy. *)
Example flags_are_ignored_in_session :
  run_attack_module (Demo.attack (Some "other_strategy") (Some "9")) Demo.in_session
  = run_attack_module (Demo.attack None None) Demo.in_session
  /\ match attack_runner_args (A := Demo.demo_api) Demo.a_session
                              (Demo.attack (Some "other_strategy") (Some "9")) with
     | Ok runner_args =>
         attack_strategy_field runner_args "context_strategy_info"
         = Some (VList [VDict [("context_strategy_id", VStr "add_previous_prompt");
                               ("num_of_prev_prompts", VInt 5)]])
     | Raise _ => False
     end.
Proof. split; [reflexivity|]. vm_compute. reflexivity. Qed.

End CliFacts.

(* ===================================================================== *)
(** * More about exactstrmatch.py                                         *)
(* ===================================================================== *)

Module ExactStrMatchMore.

Import ExactStrMatch.

(** What [get_results] returns on any non-empty [predicted_results],
    whatever the length of [targets]. *)
Lemma get_results_value (prompts predicted_results targets : list string) :
  length predicted_results <> 0%nat ->
  get_results validate_output prompts predicted_results targets
  = Ok [("exact_str_match",
         JNumber (inject_Z (Z.of_nat (equal_positions predicted_results targets))
                  / inject_Z (Z.of_nat (length predicted_results)))%Q)].
Proof.
  intros Hlen. unfold get_results, truediv.
  rewrite ExactStrMatchFacts.count_loop_equal_positions.
  destruct (Z.eqb_spec (Z.of_nat (length predicted_results)) 0) as [E|_]; [lia|].
  reflexivity.
Qed.

Lemma ratio_one (c n : Z) :
  0 < n -> ((inject_Z c / inject_Z n == 1)%Q <-> c = n).
Proof.
  intros Hn. destruct n as [|p|p]; try lia.
  unfold Qeq, Qdiv, Qmult, Qinv, inject_Z. cbn. lia.
Qed.

Lemma ratio_zero (c n : Z) :
  0 < n -> ((inject_Z c / inject_Z n == 0)%Q <-> c = 0).
Proof.
  intros Hn. destruct n as [|p|p]; try lia.
  unfold Qeq, Qdiv, Qmult, Qinv, inject_Z. cbn. lia.
Qed.

Lemma equal_positions_full (pr tg : list string) :
  length pr = length tg ->
  (equal_positions pr tg = length pr <-> pr = tg).
Proof.
  revert tg. induction pr as [|r pr IH]; intros [|t tg] Hlen;
    try discriminate.
  - split; reflexivity.
  - injection Hlen as Hlen.
    rewrite ExactStrMatchFacts.equal_positions_cons. cbn [length].
    pose proof (ExactStrMatchFacts.equal_positions_le pr tg) as Hle.
    destruct (String.eqb_spec r t) as [->|Hne].
    + cbn. split.
      * intros H. f_equal. apply (IH tg Hlen). lia.
      * intros [= H]. apply (IH tg Hlen) in H. lia.
    + cbn. split; [lia|]. intros [= H _]. contradiction.
Qed.

Lemma equal_positions_none (pr tg : list string) :
  length pr = length tg ->
  (equal_positions pr tg = 0%nat <-> Forall2 (fun r t => r <> t) pr tg).
Proof.
  revert tg. induction pr as [|r pr IH]; intros [|t tg] Hlen;
    try discriminate.
  - split; [constructor|reflexivity].
  - injection Hlen as Hlen.
    rewrite ExactStrMatchFacts.equal_positions_cons.
    destruct (String.eqb_spec r t) as [->|Hne].
    + cbn. split; [lia|]. intros H. inversion H; subst. contradiction.
    + cbn. rewrite (IH tg Hlen). split.
      * intros H. constructor; assumption.
      * intros H. inversion H; subst. assumption.
Qed.

(** X1: on lists of equal nonzero length the score is 1 exactly when the
    predicted results are the targets, and 0 exactly when no position
    agrees. *)
Theorem score_is_one_iff_identical
        (prompts predicted_results targets : list string) (s : Q) :
  length predicted_results = length targets ->
  length predicted_results <> 0%nat ->
  get_results validate_output prompts predicted_results targets
  = Ok [("exact_str_match", JNumber s)] ->
  ((s == 1)%Q <-> predicted_results = targets)
  /\ ((s == 0)%Q <-> Forall2 (fun r t => r <> t) predicted_results targets).
Proof.
  intros Hlen Hne. rewrite (get_results_value _ _ _ Hne). intros [= <-].
  split.
  - rewrite ratio_one by lia. rewrite <- (equal_positions_full _ _ Hlen). lia.
  - rewrite ratio_zero by lia. rewrite <- (equal_positions_none _ _ Hlen). lia.
Qed.

Lemma score_is_one_iff_identical_witness :
  (((2 # 2) == 1)%Q <-> ["a"; "b"] = ["a"; "b"])
  /\ (((2 # 2) == 0)%Q
      <-> Forall2 (fun r t : string => r <> t) ["a"; "b"] ["a"; "b"]).
Proof.
  apply (score_is_one_iff_identical [] ["a"; "b"] ["a"; "b"] (2 # 2)%Q);
    [reflexivity | discriminate | reflexivity].
Defined.

Lemma zip_app_l {A B} (xs extra : list A) (ys : list B) :
  length xs = length ys -> zip (xs ++ extra) ys = zip xs ys.
Proof.
  revert ys. induction xs as [|x xs IH]; intros [|y ys] Hlen; try discriminate.
  - destruct extra; reflexivity.
  - cbn. f_equal. apply IH. now injection Hlen.
Qed.

Lemma zip_app_r {A B} (xs : list A) (ys extra : list B) :
  length xs = length ys -> zip xs (ys ++ extra) = zip xs ys.
Proof.
  revert ys. induction xs as [|x xs IH]; intros [|y ys] Hlen; try discriminate.
  - reflexivity.
  - cbn. f_equal. apply IH. now injection Hlen.
Qed.

(** X2: the lengths are not compared.  Predicted results beyond the last
    target count as wrong: they add to the divisor only.  Targets beyond
    the last predicted result are ignored. *)
Theorem unequal_lengths_are_scored
        (validate : response -> schema -> bool)
        (prompts predicted_results targets extra : list string) :
  length predicted_results = length targets ->
  count_loop (zip (predicted_results ++ extra) targets) 0
  = Z.of_nat (equal_positions predicted_results targets)
  /\ (predicted_results ++ extra <> [] ->
      get_results validate_output prompts (predicted_results ++ extra) targets
      = Ok [("exact_str_match",
             JNumber (inject_Z (Z.of_nat (equal_positions predicted_results targets))
                      / inject_Z (Z.of_nat (length predicted_results
                                            + length extra)))%Q)])
  /\ get_results validate prompts predicted_results (targets ++ extra)
     = get_results validate prompts predicted_results targets.
Proof.
  intros Hlen.
  assert (Hcount : count_loop (zip (predicted_results ++ extra) targets) 0
                   = Z.of_nat (equal_positions predicted_results targets)).
  { rewrite (zip_app_l _ _ _ Hlen).
    rewrite ExactStrMatchFacts.count_loop_equal_positions. lia. }
  split; [exact Hcount|]. split.
  - intros Hne. unfold get_results, truediv. rewrite Hcount, length_app.
    destruct (Z.eqb_spec (Z.of_nat (length predicted_results + length extra)) 0)
      as [E|_].
    + destruct predicted_results, extra; cbn in *; try lia. contradiction.
    + reflexivity.
  - unfold get_results. now rewrite (zip_app_r _ _ _ Hlen).
Qed.

Lemma unequal_lengths_are_scored_witness :
  get_results validate_output [] (["a"; "b"] ++ ["c"; "d"]) ["a"; "x"]
  = Ok [("exact_str_match", JNumber (1 # 4))]
  /\ get_results validate_output [] ["a"; "b"] (["a"; "x"] ++ ["y"])
     = get_results validate_output [] ["a"; "b"] ["a"; "x"].
Proof.
  destruct (unequal_lengths_are_scored validate_output [] ["a"; "b"] ["a"; "x"]
              ["c"; "d"] eq_refl) as (_ & H & _).
  destruct (unequal_lengths_are_scored validate_output [] ["a"; "b"] ["a"; "x"]
              ["y"] eq_refl) as (_ & _ & H').
  split; [|exact H'].
  rewrite H by discriminate. reflexivity.
Defined.

Lemma count_loop_swap (pr tg : list string) (c : Z) :
  count_loop (zip tg pr) c = count_loop (zip pr tg) c.
Proof.
  revert tg c. induction pr as [|r pr IH]; intros [|t tg] c; try reflexivity.
  cbn. rewrite (String.eqb_sym t r). apply IH.
Qed.

(** X3: the score does not tell the predicted results from the targets:
    on lists of equal length, exchanging the two gives the same outcome,
    whatever the validator and the prompts are. *)
Theorem get_results_symmetric
        (validate : response -> schema -> bool)
        (prompts prompts' predicted_results targets : list string) :
  length predicted_results = length targets ->
  get_results validate prompts targets predicted_results
  = get_results validate prompts' predicted_results targets.
Proof.
  intros Hlen. unfold get_results.
  now rewrite count_loop_swap, Hlen.
Qed.

Lemma get_results_symmetric_witness :
  get_results validate_output [] ["a"; "x"] ["a"; "b"]
  = get_results validate_output ["p"] ["a"; "b"] ["a"; "x"].
Proof.
  apply (get_results_symmetric validate_output [] ["p"] ["a"; "b"] ["a"; "x"]).
  reflexivity.
Defined.

End ExactStrMatchMore.

(* ===================================================================== *)
(** * More about redteaming.py                                            *)
(* ===================================================================== *)

Module RedTeamingMore.

Import RedTeaming RedTeamingFacts.

Section More.

Context {C : Collaborators}.

(** ** Runs in which nothing fails *)

Lemma for_each_load_entry_all db entries mods s :
  Forall2 (fun a m => resolve_entry (self_llm_connectors s) db a = Ok m)
          entries mods ->
  exists tr,
    for_each (load_entry db) entries s
    = (Ok tt, with_loaded s (loaded_attack_modules s ++ mods) (trace s ++ tr))
    /\ Forall (fun ev => ~ reports_failure ev /\ event_module ev = None) tr.
Proof.
  intros H. revert s H.
  induction entries as [|a entries IH] in mods |- *; intros s H.
  - inversion H; subst. exists []. cbn. rewrite !app_nil_r.
    split; [destruct s; reflexivity|constructor].
  - inversion H as [|? m ? mods' Ha Hrest]; subst.
    cbn [for_each]. unfold bind at 1. rewrite load_entry_unfold.
    unfold resolve_entry in Ha.
    destruct (build_arguments (self_llm_connectors s) db a) as [args|e];
      [|discriminate].
    cbn in Ha. rewrite Ha.
    destruct (IH mods' (with_loaded s (loaded_attack_modules s ++ [m])
                                    (trace s ++ [LoadAttackModule args])) Hrest)
      as (tr & Heq & Htr).
    rewrite Heq. cbn. rewrite <- !app_assoc.
    exists (LoadAttackModule args :: tr). split; [reflexivity|].
    constructor; [split; [intros []|reflexivity]|exact Htr].
Qed.

Lemma part1_all ra db sm w cs entries mods :
  load_connectors (endpoints sm) = Ok cs ->
  ra_attack_strategies ra = Some entries ->
  Forall2 (fun a m => resolve_entry cs db a = Ok m) entries mods ->
  exists tr,
    part1 ra db sm (configured_with ra [] [] [] w [])
    = (Ok tt, configured_with ra cs mods [] w tr)
    /\ Forall (fun ev => ~ reports_failure ev /\ event_module ev = None) tr.
Proof.
  intros Hcs Hentries Hall.
  unfold part1, bind, emit, set_loaded, modify, try_except, lift,
    set_llm_connectors, configured_with. cbn.
  rewrite Hcs, Hentries. cbn.
  match goal with
  | |- context [for_each (load_entry db) entries ?s0] =>
      destruct (for_each_load_entry_all db entries mods s0 Hall)
        as (tr & Heq & Htr); rewrite Heq
  end.
  unfold with_loaded. cbn.
  exists (Print OutPart1 :: tr). split; [reflexivity|].
  constructor; [split; [intros []|reflexivity]|exact Htr].
Qed.

Lemma returned_events_quiet i m calls d :
  Forall (fun ev => ~ reports_failure ev) (returned_events i m calls d).
Proof.
  unfold returned_events. repeat (apply Forall_app; split).
  - repeat constructor; intros [].
  - apply Forall_forall. intros ev Hev.
    apply list_elem_of_In, in_map_iff in Hev as (c & <- & _). intros [].
  - repeat constructor; intros [].
Qed.

(** The execution loop on modules that all return: each begins and ends,
    and no failure is reported. *)
Lemma run_modules_all_return mods i s rs w' :
  runs_ok (world s) mods rs w' ->
  exists tr,
    run_modules i mods s
    = (Ok tt, with_run s (responses_from_attack_module s ++ rs) w'
                       (trace s ++ tr))
    /\ (forall k, (k < length mods)%nat ->
                  In (ExecBegin (i + k)) tr /\ In (ExecEnd (i + k)) tr)
    /\ Forall (fun ev => ~ reports_failure ev) tr.
Proof.
  revert i s rs. induction mods as [|m mods IH]; intros i s rs Hok.
  - inversion Hok; subst. exists []. cbn. rewrite !app_nil_r, with_run_id.
    split; [reflexivity|]. split; [intros k Hk; lia|constructor].
  - inversion Hok as [|? ? ? calls r w1 rs' ? Hex Hrest]; subst.
    rewrite run_modules_cons, Hex.
    match goal with
    | |- context [run_modules (S i) mods ?s1] =>
        destruct (IH (S i) s1 rs' Hrest) as (tr & Heq & Hboth & Hquiet);
        rewrite Heq
    end.
    cbn [with_run responses_from_attack_module trace world
         self_num_of_prompts self_system_prompt self_attack_strategies_args
         self_llm_connectors loaded_attack_modules].
    eexists (returned_events i m calls _ ++ tr).
    rewrite <- !app_assoc. split; [reflexivity|]. split.
    + intros [|k] Hk.
      * rewrite Nat.add_0_r. split; apply in_or_app; left.
        -- right. left. reflexivity.
        -- unfold returned_events. apply in_or_app. right.
           apply in_or_app. right. left. reflexivity.
      * replace (i + S k)%nat with (S i + k)%nat by lia.
        cbn in Hk. destruct (Hboth k) as [Hb He]; [lia|].
        split; apply in_or_app; right; assumption.
    + apply Forall_app. split; [apply returned_events_quiet|exact Hquiet].
Qed.

(** X4: when the connectors load, every entry resolves and every module
    returns, the whole configuration is executed: the modules are those of
    the entries, in order, each begins and ends, their responses are
    collected in order, no failure is reported, and the empty dictionary
    is returned. *)
Theorem all_entries_execute ra db sm w cs entries mods rs w' :
  load_connectors (endpoints sm) = Ok cs ->
  ra_attack_strategies ra = Some entries ->
  Forall2 (fun a m => resolve_entry cs db a = Ok m) entries mods ->
  runs_ok w mods rs w' ->
  (generate ra db sm (init_state w)).1 = Ok []
  /\ loaded_attack_modules (generate ra db sm (init_state w)).2 = mods
  /\ responses_from_attack_module (generate ra db sm (init_state w)).2 = rs
  /\ world (generate ra db sm (init_state w)).2 = w'
  /\ (forall k, (k < length entries)%nat ->
        In (ExecBegin k) (trace (generate ra db sm (init_state w)).2)
        /\ In (ExecEnd k) (trace (generate ra db sm (init_state w)).2))
  /\ Forall (fun ev => ~ reports_failure ev)
            (trace (generate ra db sm (init_state w)).2).
Proof.
  intros Hcs Hentries Hall Hok.
  destruct (part1_all ra db sm w cs entries mods Hcs Hentries Hall)
    as (tr1 & Hpart1 & Htr1).
  destruct (generate_after_part1 ra db sm w cs mods tr1 Hpart1)
    as (r & rs0 & w0 & tr2 & Hgen & Hrun & _).
  destruct (run_modules_all_return mods 0
              (configured_with ra cs mods [] w (tr1 ++ [Print OutPart2]))
              rs w' Hok) as (tr & Hret & Hboth & Hquiet).
  rewrite Hrun in Hret.
  assert (Hr : r = Ok tt) by congruence. subst r.
  assert (Hstate :
    configured_with ra cs mods rs0 w0 (tr1 ++ Print OutPart2 :: tr2)
    = configured_with ra cs mods rs w' (tr1 ++ Print OutPart2 :: tr)).
  { apply (f_equal snd) in Hret. cbn [snd] in Hret. rewrite Hret.
    unfold with_run, configured_with. cbn. now rewrite <- app_assoc. }
  rewrite Hgen, Hstate. cbn [fst snd]. unfold configured_with.
  cbn [loaded_attack_modules responses_from_attack_module world trace].
  repeat (split; [reflexivity|]).
  assert (Hlen : length entries = length mods)
    by (eapply Forall2_length; exact Hall).
  split.
  - intros k Hk. destruct (Hboth k) as [Hb He]; [lia|].
    split; apply in_or_app; right; right; assumption.
  - apply Forall_app. split.
    + eapply Forall_impl; [exact Htr1|]. intros ev [H _]. exact H.
    + constructor; [intros []|exact Hquiet].
Qed.

(** ** Runs in which nothing is loaded *)

Lemma comprehension_fails {X Y} (f : X -> res Y) (xs : list X) x e :
  In x xs -> f x = Raise e -> exists e', comprehension f xs = Raise e'.
Proof.
  induction xs as [|y xs IH]; intros Hin Hx; [destruct Hin|].
  cbn. destruct (f y) as [v|e1] eqn:Hy; cbn; [|eauto].
  destruct Hin as [->|Hin]; [congruence|].
  destruct (IH Hin Hx) as (e' & ->). cbn. eauto.
Qed.

Lemma generate_nothing_loaded ra db sm w cs tr1 :
  part1 ra db sm (configured_with ra [] [] [] w [])
  = (Ok tt, configured_with ra cs [] [] w tr1) ->
  generate ra db sm (init_state w)
  = (Ok [], configured_with ra cs [] [] w (tr1 ++ [Print OutPart2])).
Proof.
  intros Hpart1.
  destruct (generate_after_part1 ra db sm w cs [] tr1 Hpart1)
    as (r & rs & w' & tr2 & Hgen & Hrun & _).
  cbn in Hrun. unfold ret in Hrun. rewrite Hgen.
  injection Hrun as <- <- <- Htr.
  apply app_inv_head in Htr. injection Htr as <-. reflexivity.
Qed.

(** X5: when one endpoint of the session cannot be read or connected,
    nothing is loaded and nothing runs, however valid the entries are:
    [AttackModule.load] is not reached, the world is untouched, the
    failure is printed and the empty dictionary is returned. *)
Theorem unreachable_endpoint_runs_nothing ra db sm w endpoint e :
  In endpoint (endpoints sm) ->
  res_bind (ConnectorEndpoint_read endpoint) Connector_create = Raise e ->
  exists e',
    generate ra db sm (init_state w)
    = (Ok [],
       configured_with ra [] [] [] w
         [Print OutPart1; Print (OutUnableToLoad e'); Print OutPart2]).
Proof.
  intros Hin He.
  destruct (comprehension_fails
              (fun ep => res_bind (ConnectorEndpoint_read ep) Connector_create)
              (endpoints sm) endpoint e Hin He) as (e' & Hcs).
  exists e'.
  apply (generate_nothing_loaded ra db sm w []
           [Print OutPart1; Print (OutUnableToLoad e')]).
  unfold part1, bind, emit, set_loaded, modify, try_except, lift,
    set_llm_connectors, configured_with, load_connectors. cbn.
  rewrite Hcs. reflexivity.
Qed.

(** X6: when [runner_args] has no ["attack_strategies"], the loop over it
    raises a [TypeError] that Part 1 prints; the connectors stay loaded,
    nothing runs and the empty dictionary is returned.  An empty list of
    attack strategies gives the same run without the failure. *)
Theorem missing_attack_strategies_runs_nothing ra db sm w cs :
  load_connectors (endpoints sm) = Ok cs ->
  (ra_attack_strategies ra = None ->
   generate ra db sm (init_state w)
   = (Ok [],
      configured_with ra cs [] [] w
        [Print OutPart1;
         Print (OutUnableToLoad
                  (mk_exn TypeError "'NoneType' object is not iterable"));
         Print OutPart2]))
  /\ (ra_attack_strategies ra = Some [] ->
      generate ra db sm (init_state w)
      = (Ok [], configured_with ra cs [] [] w [Print OutPart1; Print OutPart2])).
Proof.
  intros Hcs. split; intros Hnone.
  - apply (generate_nothing_loaded ra db sm w cs
             [Print OutPart1; Print (OutUnableToLoad _)]).
    unfold part1, bind, emit, set_loaded, modify, try_except, lift,
      set_llm_connectors, configured_with. cbn.
    rewrite Hcs, Hnone. reflexivity.
  - apply (generate_nothing_loaded ra db sm w cs [Print OutPart1]).
    unfold part1, bind, emit, set_loaded, modify, try_except, lift,
      set_llm_connectors, configured_with. cbn.
    rewrite Hcs, Hnone. reflexivity.
Qed.

(** ** Runs that return *)

Lemma run_modules_ok_inv mods i s s' :
  run_modules i mods s = (Ok tt, s') ->
  exists rs,
    runs_ok (world s) mods rs (world s')
    /\ responses_from_attack_module s' = responses_from_attack_module s ++ rs.
Proof.
  revert i s. induction mods as [|m mods IH]; intros i s Hrun.
  - cbn in Hrun. injection Hrun as <-. exists [].
    split; [constructor|now rewrite app_nil_r].
  - rewrite run_modules_cons in Hrun.
    destruct (execute m (world s)) as [[calls [r|e]] w1] eqn:Hex;
      [|discriminate].
    destruct (IH _ _ Hrun) as (rs & Hok & Hrs).
    exists (r :: rs). split.
    + econstructor; [exact Hex|exact Hok].
    + rewrite Hrs. cbn. now rewrite <- app_assoc.
Qed.

(** X7: a run that returns has executed every module it loaded: the
    modules returned one after the other from the initial world, the
    responses collected are theirs, one per module, and the dictionary
    returned is empty. *)
Theorem returning_run_executed_every_module ra db sm w report :
  (generate ra db sm (init_state w)).1 = Ok report ->
  report = []
  /\ runs_ok w
       (loaded_attack_modules (generate ra db sm (init_state w)).2)
       (responses_from_attack_module (generate ra db sm (init_state w)).2)
       (world (generate ra db sm (init_state w)).2)
  /\ length (responses_from_attack_module (generate ra db sm (init_state w)).2)
     = length (loaded_attack_modules (generate ra db sm (init_state w)).2).
Proof.
  destruct (generate_shape ra db sm w)
    as (cs & mods & tr1 & r & rs & w' & tr2 & Hgen & _ & _ & Hrun & _).
  rewrite Hgen. cbn [fst snd loaded_attack_modules responses_from_attack_module
                     world].
  destruct r as [[]|e]; [|discriminate]. intros [= <-].
  destruct (run_modules_ok_inv _ _ _ _ Hrun) as (rs' & Hok & Hrs).
  cbn in Hok, Hrs. subst rs'.
  split; [reflexivity|]. split; [exact Hok|].
  clear -Hok. induction Hok; cbn; congruence.
Qed.

(** ** What [generate] does not read *)

Lemma load_entry_reconfigured ra db a s :
  load_entry db a (reconfigured ra s)
  = ((load_entry db a s).1, reconfigured ra (load_entry db a s).2).
Proof.
  rewrite !load_entry_unfold.
  change (self_llm_connectors (reconfigured ra s)) with (self_llm_connectors s).
  destruct (build_arguments (self_llm_connectors s) db a) as [args|e];
    [|reflexivity].
  destruct (AttackModule_load args); reflexivity.
Qed.

Lemma for_each_load_entry_reconfigured ra db entries s :
  for_each (load_entry db) entries (reconfigured ra s)
  = ((for_each (load_entry db) entries s).1,
     reconfigured ra (for_each (load_entry db) entries s).2).
Proof.
  revert s. induction entries as [|a entries IH]; intros s; [reflexivity|].
  cbn [for_each]. unfold bind. rewrite load_entry_reconfigured.
  destruct (load_entry db a s) as [[[]|e] s1]; cbn [fst snd]; [|reflexivity].
  apply IH.
Qed.

Lemma part1_same_strategies ra ra' db sm s :
  ra_attack_strategies ra = ra_attack_strategies ra' ->
  part1 ra' db sm s = part1 ra db sm s.
Proof. intros Hsame. unfold part1. now rewrite Hsame. Qed.

Lemma part1_reconfigured ra ra' db sm s :
  ra_attack_strategies ra = ra_attack_strategies ra' ->
  part1 ra' db sm (reconfigured ra' s)
  = ((part1 ra db sm s).1, reconfigured ra' (part1 ra db sm s).2).
Proof.
  intros Hsame. rewrite (part1_same_strategies ra ra' db sm _ Hsame).
  unfold part1, bind, emit, set_loaded, modify, try_except,
    lift, set_llm_connectors. cbn.
  destruct (load_connectors (endpoints sm)) as [cs|e]; [|reflexivity].
  cbn. destruct (iterate (ra_attack_strategies ra)) as [entries|e];
    [|reflexivity].
  cbn.
  match goal with
  | |- context [for_each (load_entry db) entries
                  (mk_state (default 0 (ra_num_of_prompts ra')) ?sp ?asa
                            ?c ?l ?r ?w ?t)] =>
      change (mk_state (default 0 (ra_num_of_prompts ra')) sp asa c l r w t)
        with (reconfigured ra'
                (mk_state (self_num_of_prompts s) (self_system_prompt s)
                          (self_attack_strategies_args s) c l r w t))
  end.
  rewrite for_each_load_entry_reconfigured.
  destruct (for_each (load_entry db) entries _) as [[[]|e] s1]; reflexivity.
Qed.

Lemma run_modules_reconfigured ra mods i s :
  run_modules i mods (reconfigured ra s)
  = ((run_modules i mods s).1, reconfigured ra (run_modules i mods s).2).
Proof.
  revert i s. induction mods as [|m mods IH]; intros i s; [reflexivity|].
  rewrite !run_modules_cons.
  change (world (reconfigured ra s)) with (world s).
  destruct (execute m (world s)) as [[calls [r|e]] w1]; [|reflexivity].
  apply (IH (S i)
            (with_run s (responses_from_attack_module s ++ [r]) w1
               (trace s ++ returned_events i m calls
                             (perf_counter w1 - perf_counter (world s))%Q))).
Qed.

(** X8: [generate] reads ["num_of_prompts"] and ["system_prompt"] only to
    store them on [self].  Two configurations with the same attack
    strategies load the same modules, execute the same way and end in
    states that differ in those attributes alone: the system prompt never
    reaches an attack module. *)
Theorem system_prompt_is_only_stored ra ra' db sm w :
  ra_attack_strategies ra = ra_attack_strategies ra' ->
  generate ra' db sm (init_state w)
  = ((generate ra db sm (init_state w)).1,
     reconfigured ra' (generate ra db sm (init_state w)).2)
  /\ trace (generate ra' db sm (init_state w)).2
     = trace (generate ra db sm (init_state w)).2
  /\ world (generate ra' db sm (init_state w)).2
     = world (generate ra db sm (init_state w)).2
  /\ loaded_attack_modules (generate ra' db sm (init_state w)).2
     = loaded_attack_modules (generate ra db sm (init_state w)).2.
Proof.
  intros Hsame.
  assert (Hgen : generate ra' db sm (init_state w)
                 = ((generate ra db sm (init_state w)).1,
                    reconfigured ra' (generate ra db sm (init_state w)).2)).
  { rewrite !generate_unfold.
    change (mk_state (default 0 (ra_num_of_prompts ra'))
                     (default "" (ra_system_prompt ra'))
                     (ra_attack_strategies ra')
                     (self_llm_connectors (init_state w))
                     (loaded_attack_modules (init_state w))
                     (responses_from_attack_module (init_state w))
                     (world (init_state w)) (trace (init_state w)))
      with (reconfigured ra' (configured_with ra [] [] [] w [])).
    change (mk_state (default 0 (ra_num_of_prompts ra))
                     (default "" (ra_system_prompt ra))
                     (ra_attack_strategies ra)
                     (self_llm_connectors (init_state w))
                     (loaded_attack_modules (init_state w))
                     (responses_from_attack_module (init_state w))
                     (world (init_state w)) (trace (init_state w)))
      with (configured_with ra [] [] [] w []).
    rewrite (part1_reconfigured ra ra' db sm _ Hsame).
    destruct (part1 ra db sm (configured_with ra [] [] [] w []))
      as [[[]|e] s1]; cbn [fst snd]; [|reflexivity].
    change (loaded_attack_modules (reconfigured ra' s1))
      with (loaded_attack_modules s1).
    change (with_run (reconfigured ra' s1) [] (world (reconfigured ra' s1))
                     (trace (reconfigured ra' s1) ++ [Print OutPart2]))
      with (reconfigured ra'
              (with_run s1 [] (world s1) (trace s1 ++ [Print OutPart2]))).
    rewrite run_modules_reconfigured.
    destruct (run_modules 0 (loaded_attack_modules s1) _) as [[[]|e] s3];
      reflexivity. }
  split; [exact Hgen|]. rewrite Hgen. repeat split; reflexivity.
Qed.

End More.

Lemma all_entries_execute_witness :
  (Demo.run Demo.two_samples).1 = Ok []
  /\ loaded_attack_modules (Demo.run Demo.two_samples).2
     = [Demo.loaded "sample_attack_module" "p0";
        Demo.loaded "sample_attack_module" "p1"]
  /\ responses_from_attack_module (Demo.run Demo.two_samples).2
     = [["p0"]; ["p1"]]
  /\ world (Demo.run Demo.two_samples).2 = ["p0"; "p1"]
  /\ (forall k, (k < length Demo.two_samples)%nat ->
        In (ExecBegin k) (trace (Demo.run Demo.two_samples).2)
        /\ In (ExecEnd k) (trace (Demo.run Demo.two_samples).2))
  /\ Forall (fun ev => ~ reports_failure ev)
            (trace (Demo.run Demo.two_samples).2).
Proof.
  apply (all_entries_execute (C := Demo.demo_collaborators)
           (Demo.config Demo.two_samples) tt Demo.session []
           ["openai-gpt4"] Demo.two_samples
           [Demo.loaded "sample_attack_module" "p0";
            Demo.loaded "sample_attack_module" "p1"]
           [["p0"]; ["p1"]] ["p0"; "p1"]).
  - reflexivity.
  - reflexivity.
  - repeat constructor.
  - apply (runs_ok_cons (C := Demo.demo_collaborators)
             [] (Demo.loaded "sample_attack_module" "p0")
             [Demo.loaded "sample_attack_module" "p1"]
             ["openai-gpt4"] ["p0"] ["p0"] [["p1"]] ["p0"; "p1"]);
      [reflexivity|].
    apply (runs_ok_cons (C := Demo.demo_collaborators)
             ["p0"] (Demo.loaded "sample_attack_module" "p1") []
             ["openai-gpt4"] ["p1"] ["p0"; "p1"] [] ["p0"; "p1"]);
      [reflexivity|].
    apply (runs_ok_nil (C := Demo.demo_collaborators)).
Defined.

Lemma unreachable_endpoint_runs_nothing_witness :
  exists e',
    Demo.run_with (Demo.config Demo.two_samples) Demo.unreachable_session
    = (Ok [],
       Demo.nothing_loaded (Demo.config Demo.two_samples) []
         [Print OutPart1; Print (OutUnableToLoad e'); Print OutPart2]).
Proof.
  apply (unreachable_endpoint_runs_nothing (C := Demo.demo_collaborators)
           (Demo.config Demo.two_samples) tt Demo.unreachable_session []
           "no-such-endpoint"
           (mk_exn RuntimeError "unknown endpoint: no-such-endpoint")).
  - right. left. reflexivity.
  - reflexivity.
Defined.

Lemma missing_attack_strategies_runs_nothing_witness :
  Demo.run_with Demo.no_strategies Demo.session
  = (Ok [],
     Demo.nothing_loaded Demo.no_strategies ["openai-gpt4"]
       [Print OutPart1;
        Print (OutUnableToLoad
                 (mk_exn TypeError "'NoneType' object is not iterable"));
        Print OutPart2])
  /\ Demo.run_with Demo.empty_strategies Demo.session
     = (Ok [],
        Demo.nothing_loaded Demo.empty_strategies ["openai-gpt4"]
          [Print OutPart1; Print OutPart2]).
Proof.
  split.
  - apply (proj1 (missing_attack_strategies_runs_nothing
                    (C := Demo.demo_collaborators) Demo.no_strategies tt
                    Demo.session [] ["openai-gpt4"] eq_refl)).
    reflexivity.
  - apply (proj2 (missing_attack_strategies_runs_nothing
                    (C := Demo.demo_collaborators) Demo.empty_strategies tt
                    Demo.session [] ["openai-gpt4"] eq_refl)).
    reflexivity.
Defined.

Lemma returning_run_executed_every_module_witness :
  (Demo.run Demo.two_samples).1 = Ok []
  /\ runs_ok (C := Demo.demo_collaborators) []
       (loaded_attack_modules (Demo.run Demo.two_samples).2)
       (responses_from_attack_module (Demo.run Demo.two_samples).2)
       (world (Demo.run Demo.two_samples).2)
  /\ length (responses_from_attack_module (Demo.run Demo.two_samples).2)
     = length (loaded_attack_modules (Demo.run Demo.two_samples).2).
Proof.
  split; [reflexivity|].
  apply (returning_run_executed_every_module (C := Demo.demo_collaborators)
           (Demo.config Demo.two_samples) tt Demo.session [] []).
  reflexivity.
Defined.

Lemma system_prompt_is_only_stored_witness :
  ra_system_prompt (Demo.other_config Demo.crash_then_sample)
  <> ra_system_prompt (Demo.config Demo.crash_then_sample)
  /\ trace (Demo.run_with (Demo.other_config Demo.crash_then_sample)
                           Demo.session).2
     = trace (Demo.run Demo.crash_then_sample).2.
Proof.
  split; [discriminate|].
  apply (system_prompt_is_only_stored (C := Demo.demo_collaborators)
           (Demo.config Demo.crash_then_sample)
           (Demo.other_config Demo.crash_then_sample) tt Demo.session []).
  reflexivity.
Defined.

End RedTeamingMore.

(* ===================================================================== *)
(** * More about the red teaming commands of session.py                   *)
(* ===================================================================== *)

Module MonadFacts.

(** How [bind] and [try_except] run, once the first step is known. *)
Lemma bind_ok {S X Y} (m : M S X) (k : X -> M S Y) s x s' :
  m s = (Ok x, s') -> bind m k s = k x s'.
Proof. intros H. unfold bind. now rewrite H. Qed.

Lemma bind_raise {S X Y} (m : M S X) (k : X -> M S Y) s e s' :
  m s = (Raise e, s') -> bind m k s = (Raise e, s').
Proof. intros H. unfold bind. now rewrite H. Qed.

Lemma try_except_ok {S X} (body : M S X) handler s x s' :
  body s = (Ok x, s') -> try_except body handler s = (Ok x, s').
Proof. intros H. unfold try_except. now rewrite H. Qed.

Lemma try_except_raise {S X} (body : M S X) handler s e s' :
  body s = (Raise e, s') -> try_except body handler s = handler e s'.
Proof. intros H. unfold try_except. now rewrite H. Qed.

End MonadFacts.

Module CliMore.

Import Cli MonadFacts.

Section More.

Context {A : Api}.

(** ** Failures on the way to the runner *)

Lemma run_with_runner_run_fails sess runner_args s sid runner w1 e :
  sess !! "session_id" = Some sid ->
  api_load_runner sid (world s) = (Ok runner, w1) ->
  (run_red_teaming runner runner_args w1).1 = Raise e ->
  run_with_runner sess runner_args s
  = (Raise e,
     mk_state (active_session s) (stdout s)
              (calls s ++ [CallLoadRunner sid; CallRunRedTeaming runner_args])
              (run_red_teaming runner runner_args w1).2).
Proof.
  intros Hsid Hload Hrun.
  unfold run_with_runner, bind, lift, call, subscript. rewrite Hsid. cbn.
  rewrite Hload. cbn.
  destruct (run_red_teaming runner runner_args w1) as [r w2].
  cbn in Hrun. subst r. cbn. now rewrite <- app_assoc.
Qed.

(** X9: when the runner raises during [run_red_teaming], [runner.close()]
    is not called and the session is not reloaded: after loading the
    runner and starting the run, both commands only print the error. *)
Theorem runner_is_left_open_when_the_run_fails
        (s : state) (args : attack_args) (user_prompt : string)
        (sid : pyval) (strategy : list pyval * list pyval)
        (runner_args : pyval) (runner : Runner) (w1 : World) (e : exn) :
  session_is_active (active_session s) = true ->
  session_strategy (active_session s) = Ok strategy ->
  attack_runner_args (active_session s) args = Ok runner_args ->
  active_session s !! "session_id" = Some sid ->
  api_load_runner sid (world s) = (Ok runner, w1) ->
  (forall x, (run_red_teaming runner x w1).1 = Raise e) ->
  run_attack_module args s
  = (Ok tt,
     mk_state (active_session s)
              (stdout s ++ [("[run_attack_module]: str(" ++ exn_str e ++ ")")%string])
              (calls s ++ [CallLoadRunner sid; CallRunRedTeaming runner_args])
              (run_red_teaming runner runner_args w1).2)
  /\ (manual_red_teaming user_prompt s).1 = Ok tt
  /\ active_session (manual_red_teaming user_prompt s).2 = active_session s
  /\ stdout (manual_red_teaming user_prompt s).2
     = stdout s ++ [("[manual_red_teaming]: str(" ++ exn_str e ++ ")")%string]
  /\ calls (manual_red_teaming user_prompt s).2
     = calls s
       ++ [CallLoadRunner sid;
           CallRunRedTeaming
             (VDict [("manual_rt_args",
                      VDict [("prompt", VStr user_prompt);
                             ("context_strategy_info", VList strategy.2);
                             ("prompt_template_ids", VList strategy.1)])])].
Proof.
  intros Hact Hstrategy Hargs Hsid Hload Hrun.
  split.
  - unfold run_attack_module.
    rewrite (bind_ok (gets active_session) _ s (active_session s) s eq_refl), Hact.
    cbn [negb].
    erewrite try_except_raise; cycle 1.
    { rewrite (bind_ok (lift (attack_runner_args (active_session s) args)) _
               s runner_args s)
      by (unfold lift; now rewrite Hargs).
    apply bind_raise.
    apply (run_with_runner_run_fails _ runner_args s sid runner w1 e
             Hsid Hload (Hrun _)). }
    reflexivity.
  - unfold manual_red_teaming.
    rewrite (bind_ok (gets active_session) _ s (active_session s) s eq_refl), Hact.
    cbn [negb].
    rewrite (bind_ok (lift (session_strategy (active_session s))) _
               s strategy s)
      by (unfold lift; now rewrite Hstrategy).
    erewrite try_except_raise;
      [|apply (run_with_runner_run_fails _ _ s sid runner w1 e
                 Hsid Hload (Hrun _))].
    repeat split; reflexivity.
Qed.

(** X10: in an active session that has no ["prompt_template"] key, the two
    commands differ: [manual_red_teaming] reads the session before its
    [try], so the [KeyError] leaves the function, while [run_attack_module]
    prints it; neither reaches the runner. *)
Theorem missing_session_key_raises_or_is_printed
        (s : state) (args : attack_args) (user_prompt : string) :
  session_is_active (active_session s) = true ->
  active_session s !! "prompt_template" = None ->
  manual_red_teaming user_prompt s
  = (Raise (mk_exn KeyError "'prompt_template'"), s)
  /\ run_attack_module args s
     = (Ok tt,
        mk_state (active_session s)
                 (stdout s ++ ["[run_attack_module]: str('prompt_template')"])
                 (calls s) (world s)).
Proof.
  intros Hact Hkey.
  assert (Hs : session_strategy (active_session s)
               = Raise (mk_exn KeyError "'prompt_template'")).
  { unfold session_strategy, subscript. rewrite Hkey. reflexivity. }
  split.
  - unfold manual_red_teaming, bind, gets, lift. rewrite Hact. cbn.
    rewrite Hs. reflexivity.
  - unfold run_attack_module, bind, gets, try_except, lift, attack_runner_args.
    rewrite Hact. cbn. rewrite Hs. reflexivity.
Qed.

(** ** Reloading the session *)

Lemma assoc_app key d1 d2 :
  assoc key (d1 ++ d2)
  = match assoc key d1 with
    | Some v => Some v
    | None => assoc key d2
    end.
Proof.
  induction d1 as [|[k v] d1 IH]; [reflexivity|].
  cbn. destruct (String.eqb key k); [reflexivity|exact IH].
Qed.

(** [dict.update]: the last binding of a key wins, other keys are kept. *)
Lemma dict_update_lookup (m : gmap string pyval) d key :
  foldl (fun acc kv => <[kv.1 := kv.2]> acc) m d !! key
  = match assoc key (reverse d) with
    | Some v => Some v
    | None => m !! key
    end.
Proof.
  revert m. induction d as [|[k v] d IH]; intros m; [reflexivity|].
  cbn [foldl]. rewrite IH, reverse_cons, assoc_app. cbn.
  destruct (assoc key (reverse d)); [reflexivity|].
  destruct (String.eqb_spec key k) as [->|Hne].
  - apply lookup_insert_eq.
  - apply lookup_insert_ne. congruence.
Qed.

(** X11: [_reload_session] merges the loaded metadata into the session
    dictionary: a key of the metadata takes its (last) value there, every
    other key keeps its value, so what the store does not return, such as
    ["cs_num_of_prev_prompts"], survives the reload.  Nothing is printed. *)
Theorem reload_merges_the_metadata
        (s : state) (runner_id : pyval) (d : list (string * pyval)) (w1 : World) :
  api_load_session runner_id (world s) = (Ok (VDict d), w1) ->
  d <> [] ->
  (_reload_session runner_id s).1 = Ok tt
  /\ stdout (_reload_session runner_id s).2 = stdout s
  /\ calls (_reload_session runner_id s).2 = calls s ++ [CallLoadSession runner_id]
  /\ world (_reload_session runner_id s).2 = w1
  /\ forall key,
       active_session (_reload_session runner_id s).2 !! key
       = match assoc key (reverse d) with
         | Some v => Some v
         | None => active_session s !! key
         end.
Proof.
  intros Hload Hne.
  unfold _reload_session, try_except, bind, call, gets, lift,
    set_active_session, modify, dict_update.
  rewrite Hload. destruct d as [|kv d]; [contradiction|]. cbn -[foldl].
  repeat (split; [reflexivity|]).
  intros key. apply (dict_update_lookup (active_session s) (kv :: d) key).
Qed.

(** [update_chat_display] writes one key of the session dictionary. *)
Lemma update_chat_display_keeps key (c : state) :
  key <> "list_of_endpoint_chats" ->
  active_session (update_chat_display c).2 !! key = active_session c !! key.
Proof.
  intros Hkey. unfold update_chat_display, bind, gets, lift, call,
    set_active_session, modify, print.
  destruct (session_is_active (active_session c)); [|reflexivity].
  destruct (subscript (active_session c) "session_id") as [sid|e];
    [|reflexivity].
  cbn. destruct (api_get_all_chats_from_session sid (world c)) as [[chats|e] w1];
    [|reflexivity].
  cbn.
  destruct (subscript (<["list_of_endpoint_chats":=chats]> (active_session c))
                      "session_id") as [title|e]; cbn.
  - destruct (render_chat_panel chats title); cbn;
      apply lookup_insert_ne; congruence.
  - apply lookup_insert_ne. congruence.
Qed.

End More.

Lemma runner_is_left_open_when_the_run_fails_witness :
  run_attack_module (A := Demo.failing_api) (Demo.attack None None)
    (mk_state (A := Demo.failing_api) Demo.a_session [] [] tt)
  = (Ok tt,
     mk_state (A := Demo.failing_api) Demo.a_session
       ["[run_attack_module]: str(timed out)"]
       [CallLoadRunner (VStr "my-runner");
        CallRunRedTeaming
          (VDict
             [("attack_strategies",
               VList
                 [VDict
                    [("attack_module_id", VStr "sample_attack_module");
                     ("prompt", VStr "this is my prompt");
                     ("system_prompt", VStr "test system prompt");
                     ("context_strategy_info",
                      VList [VDict [("context_strategy_id",
                                     VStr "add_previous_prompt");
                                    ("num_of_prev_prompts", VInt 5)]]);
                     ("prompt_template_ids", VList [VStr "mmlu"]);
                     ("metric_ids", VList [VStr "exactstrmatch"])]])])]
       tt).
Proof.
  refine (proj1 (runner_is_left_open_when_the_run_fails (A := Demo.failing_api)
                   (mk_state (A := Demo.failing_api) Demo.a_session [] [] tt)
                   (Demo.attack None None) "hello" (VStr "my-runner")
                   ([VStr "mmlu"],
                    [VDict [("context_strategy_id", VStr "add_previous_prompt");
                            ("num_of_prev_prompts", VInt 5)]])
                   _ (VStr "my-runner") tt Demo.timed_out
                   _ _ _ _ _ _)).
  all: vm_compute; reflexivity.
Defined.

Lemma missing_session_key_raises_or_is_printed_witness :
  manual_red_teaming (A := Demo.demo_api) "hello"
    (mk_state (A := Demo.demo_api) Demo.partial_session [] [] tt)
  = (Raise (mk_exn KeyError "'prompt_template'"),
     mk_state (A := Demo.demo_api) Demo.partial_session [] [] tt)
  /\ run_attack_module (A := Demo.demo_api) (Demo.attack None None)
       (mk_state (A := Demo.demo_api) Demo.partial_session [] [] tt)
     = (Ok tt,
        mk_state (A := Demo.demo_api) Demo.partial_session
          ["[run_attack_module]: str('prompt_template')"] [] tt).
Proof.
  apply (missing_session_key_raises_or_is_printed (A := Demo.demo_api)
           (mk_state (A := Demo.demo_api) Demo.partial_session [] [] tt)
           (Demo.attack None None) "hello").
  - vm_compute. reflexivity.
  - vm_compute. reflexivity.
Defined.

Lemma reload_merges_the_metadata_witness :
  active_session
    (_reload_session (A := Demo.demo_api) (VStr "other-runner") Demo.in_session).2
    !! "session_id" = Some (VStr "other-runner")
  /\ active_session
       (_reload_session (A := Demo.demo_api) (VStr "other-runner") Demo.in_session).2
       !! "cs_num_of_prev_prompts" = Some (VInt 5).
Proof.
  destruct (reload_merges_the_metadata (A := Demo.demo_api) Demo.in_session
              (VStr "other-runner") [("session_id", VStr "other-runner")] tt
              eq_refl ltac:(discriminate)) as (_ & _ & _ & _ & H).
  split.
  - rewrite (H "session_id"). reflexivity.
  - rewrite (H "cs_num_of_prev_prompts"). vm_compute. reflexivity.
Defined.

End CliMore.

(* ===================================================================== *)
(** * Properties of the session and bookmark commands                     *)
(* ===================================================================== *)

Module CommandsFacts.

Import Cli Commands MonadFacts.

Section Facts.

Context {A : Api} {St : Store}.

Lemma from_cli_no_session {T} (m : M Cli.state T) (s : Commands.state) r line :
  (forall c, Cli.active_session c = ∅ ->
             m c = (r, Cli.mk_state (Cli.active_session c)
                                    (Cli.stdout c ++ [line])
                                    (Cli.calls c) (Cli.world c))) ->
  Commands.active_session s = ∅ ->
  from_cli m s
  = (r, Commands.mk_state ∅ (Commands.stdout s ++ [line])
                          (Commands.calls s) (Commands.world s)).
Proof.
  intros Hm Hs. unfold from_cli. rewrite Hm by exact Hs. cbn.
  now rewrite Hs, app_nil_r.
Qed.

(** X12: once [end_session] has cleared the session, the commands that
    need one only say so: [show_chats], [bookmark_prompt], [use_bookmark],
    [manual_red_teaming] and [run_attack_module] print one line each and
    call neither the API nor the store. *)
Theorem commands_refuse_after_end_session
        (s : Commands.state) (endpoint bookmark_name user_prompt : string)
        (prompt_id : Z) (args : attack_args) :
  Commands.active_session (end_session s).2 = ∅
  /\ show_chats (end_session s).2
     = (Ok tt,
        Commands.mk_state ∅
          (Commands.stdout s
             ++ ["There is no active session. Activate a session to show a chat table."])
          (Commands.calls s) (Commands.world s))
  /\ bookmark_prompt endpoint prompt_id bookmark_name (end_session s).2
     = (Ok tt,
        Commands.mk_state ∅
          (Commands.stdout s
             ++ ["There is no active session. Activate a session to bookmark a prompt."])
          (Commands.calls s) (Commands.world s))
  /\ use_bookmark bookmark_name (end_session s).2
     = (Ok tt,
        Commands.mk_state ∅
          (Commands.stdout s
             ++ ["There is no active session. Activate a session to use a bookmark."])
          (Commands.calls s) (Commands.world s))
  /\ from_cli (manual_red_teaming user_prompt) (end_session s).2
     = (Ok tt,
        Commands.mk_state ∅
          (Commands.stdout s
             ++ ["There is no active session. Activate a session to start red teaming."])
          (Commands.calls s) (Commands.world s))
  /\ from_cli (run_attack_module args) (end_session s).2
     = (Ok tt,
        Commands.mk_state ∅
          (Commands.stdout s
             ++ ["There is no active session. Activate a session to start red teaming."])
          (Commands.calls s) (Commands.world s)).
Proof.
  split; [reflexivity|].
  pose proof CliFacts.session_is_active_empty as Hnone.
  split; [|split; [|split; [|split]]].
  - unfold show_chats, bind, gets, end_session, Commands.set_active_session,
      modify. cbn. rewrite Hnone. reflexivity.
  - unfold bookmark_prompt, bind, gets, end_session,
      Commands.set_active_session, modify. cbn. rewrite Hnone. reflexivity.
  - unfold use_bookmark, bind, gets, end_session,
      Commands.set_active_session, modify. cbn. rewrite Hnone. reflexivity.
  - apply (from_cli_no_session (manual_red_teaming user_prompt)
             (end_session s).2 (Ok tt)); [|reflexivity].
    intros c Hc.
    assert (Hc' : session_is_active (Cli.active_session c) = false)
      by (rewrite Hc; exact Hnone).
    unfold manual_red_teaming, bind, gets. now rewrite Hc'.
  - apply (from_cli_no_session (run_attack_module args)
             (end_session s).2 (Ok tt)); [|reflexivity].
    intros c Hc.
    assert (Hc' : session_is_active (Cli.active_session c) = false)
      by (rewrite Hc; exact Hnone).
    unfold run_attack_module, bind, gets. now rewrite Hc'.
Qed.

(** ** Deleting *)

Lemma lower_ascii_y c :
  lower_ascii c = Ascii.ascii_of_nat 121 ->
  c = Ascii.ascii_of_nat 121 \/ c = Ascii.ascii_of_nat 89.
Proof.
  destruct c as [[] [] [] [] [] [] [] []]; vm_compute; intros H;
    try discriminate; auto.
Qed.

Lemma lower_y answer :
  lower answer = "y" <-> answer = "y" \/ answer = "Y".
Proof.
  split.
  - destruct answer as [|c [|c' rest]]; cbn; try discriminate.
    intros [= H]. apply lower_ascii_y in H as [->| ->]; auto.
  - intros [->| ->]; reflexivity.
Qed.

(** X13: a bookmark or a session is deleted only when the answer to the
    question is [y] or [Y]: on any other answer the command prints that
    the deletion is cancelled and does not call the store; on [y] or [Y]
    the store is called, once. *)
Theorem deletion_needs_a_yes
        (s : Commands.state) (name answer : string) (w1 : World) :
  (console_input "[bold red]Are you sure you want to delete the bookmark (y/N)? [/]"
                 (Commands.world s) = (answer, w1) ->
   if String.eqb answer "y" || String.eqb answer "Y" then
     store_calls (Commands.calls (delete_bookmark name s).2)
     = store_calls (Commands.calls s)
       ++ [CallInput "[bold red]Are you sure you want to delete the bookmark (y/N)? [/]";
           CallDeleteBookmark (VStr name)]
   else
     delete_bookmark name s
     = (Ok tt,
        Commands.mk_state (Commands.active_session s)
          (Commands.stdout s ++ ["[bold yellow]Bookmark deletion cancelled.[/]"])
          (Commands.calls s
             ++ [inr (CallInput "[bold red]Are you sure you want to delete the bookmark (y/N)? [/]")])
          w1))
  /\ (console_input "[bold red]Are you sure you want to delete the session (y/N)? [/]"
                    (Commands.world s) = (answer, w1) ->
      if String.eqb answer "y" || String.eqb answer "Y" then
        store_calls (Commands.calls (delete_session name s).2)
        = store_calls (Commands.calls s)
          ++ [CallInput "[bold red]Are you sure you want to delete the session (y/N)? [/]";
              CallDeleteSession (VStr name)]
      else
        delete_session name s
        = (Ok tt,
           Commands.mk_state (Commands.active_session s)
             (Commands.stdout s ++ ["[bold yellow]Session deletion cancelled.[/]"])
             (Commands.calls s
                ++ [inr (CallInput "[bold red]Are you sure you want to delete the session (y/N)? [/]")])
             w1)).
Proof.
  assert (Hyes : (String.eqb answer "y" || String.eqb answer "Y") = true
                 -> String.eqb (lower answer) "y" = true).
  { intros H. apply String.eqb_eq, lower_y.
    apply orb_true_iff in H as [H|H]; apply String.eqb_eq in H; auto. }
  assert (Hno : (String.eqb answer "y" || String.eqb answer "Y") = false
                -> String.eqb (lower answer) "y" = false).
  { intros H. apply String.eqb_neq. intros Hl. apply lower_y in Hl.
    apply orb_false_iff in H as [H1 H2].
    apply String.eqb_neq in H1, H2. tauto. }
  assert (Hlog : forall (l : list (api_call + store_call)) x y,
            store_calls ((l ++ [inr x]) ++ [inr y]) = store_calls l ++ [x; y]).
  { intros l x y. unfold store_calls. rewrite <- app_assoc.
    rewrite omap_app. reflexivity. }
  split; intros Hin.
  - unfold delete_bookmark, bind, input. rewrite Hin.
    destruct (String.eqb answer "y" || String.eqb answer "Y") eqn:Hans.
    + rewrite (Hyes eq_refl). cbn [negb].
      unfold try_except, bind, Commands.call, lift, Commands.print, modify. cbn.
      destruct (api_delete_bookmark (VStr name) w1) as [[bm|e] w2]; cbn.
      * destruct (getitem bm "message"); cbn; apply Hlog.
      * apply Hlog.
    + rewrite (Hno eq_refl). reflexivity.
  - unfold delete_session, bind, input. rewrite Hin.
    destruct (String.eqb answer "y" || String.eqb answer "Y") eqn:Hans.
    + rewrite (Hyes eq_refl). cbn [negb].
      unfold try_except, bind, Commands.call, lift, Commands.print, modify. cbn.
      destruct (api_delete_session (VStr name) w1) as [[[]|e] w2]; cbn;
        apply Hlog.
    + rewrite (Hno eq_refl). reflexivity.
Qed.

(** ** Using a session *)

(** X14: when the session cannot be loaded, because the store has none
    under that runner id or because loading raises, [use_session] prints a
    line and leaves the active session as it was. *)
Theorem use_session_failure_keeps_the_session
        (s : Commands.state) (runner_id : string) (w1 : World) :
  (forall v,
      api_load_session (VStr runner_id) (Commands.world s) = (Ok v, w1) ->
      truthy v = false ->
      use_session runner_id s
      = (Ok tt,
         Commands.mk_state (Commands.active_session s)
           (Commands.stdout s
              ++ ["[Session] Cannot find a session with the existing Runner ID. Please try again."])
           (Commands.calls s ++ [inl (CallLoadSession (VStr runner_id))])
           w1))
  /\ (forall e,
         api_load_session (VStr runner_id) (Commands.world s) = (Raise e, w1) ->
         use_session runner_id s
         = (Ok tt,
            Commands.mk_state (Commands.active_session s)
              (Commands.stdout s ++ [("[use_session]: " ++ exn_str e)%string])
              (Commands.calls s ++ [inl (CallLoadSession (VStr runner_id))])
              w1)).
Proof.
  split.
  - intros v Hload Hv.
    unfold use_session, try_except, bind, Commands.call. rewrite Hload. cbn.
    rewrite Hv. reflexivity.
  - intros e Hload.
    unfold use_session, try_except, bind, Commands.call. rewrite Hload.
    reflexivity.
Qed.

(** ** Bookmarking a prompt *)

Lemma find_record_first prompt_id pre chat post id :
  Forall (differs_from prompt_id) pre ->
  getitem chat "chat_record_id" = Ok id ->
  eq_int id prompt_id = true ->
  find_record prompt_id (pre ++ chat :: post) = Ok chat.
Proof.
  intros Hpre Hid Heq. induction Hpre as [|c pre (i & Hi & Hne) _ IH]; cbn.
  - now rewrite Hid; cbn; rewrite Heq.
  - rewrite Hi. cbn. rewrite Hne. exact IH.
Qed.

Lemma find_record_none prompt_id chats :
  Forall (differs_from prompt_id) chats ->
  find_record prompt_id chats = Ok (VDict []).
Proof.
  induction 1 as [|c chats (i & Hi & Hne) _ IH]; cbn; [reflexivity|].
  rewrite Hi. cbn. rewrite Hne. exact IH.
Qed.

Lemma getitem_assoc d key v :
  assoc key d = Some v -> getitem (VDict d) key = Ok v.
Proof. intros H. cbn. now rewrite H. Qed.

Lemma assoc_nonempty d key v :
  assoc key d = Some v -> truthy (VDict d) = true.
Proof. destruct d; [discriminate|reflexivity]. Qed.

(** X15: [bookmark_prompt] bookmarks the first record of the endpoint
    whose ["chat_record_id"] equals the prompt id, with that record's
    prompt, response, context strategy, prompt template, attack module and
    metric; it calls the store once and does not touch the session. *)
Theorem bookmark_prompt_takes_the_first_match
        (s : Commands.state) (endpoint bookmark_name : string) (prompt_id : Z)
        (endpoints : list (string * pyval)) (pre post : list pyval)
        (record : list (string * pyval))
        (record_id b_prompt b_response b_cs b_pt b_am b_metric : pyval) :
  session_is_active (Commands.active_session s) = true ->
  Commands.active_session s !! "list_of_endpoint_chats" = Some (VDict endpoints) ->
  assoc endpoint endpoints = Some (VList (pre ++ VDict record :: post)) ->
  Forall (differs_from prompt_id) pre ->
  assoc "chat_record_id" record = Some record_id ->
  eq_int record_id prompt_id = true ->
  assoc "prompt" record = Some b_prompt ->
  assoc "predicted_result" record = Some b_response ->
  assoc "context_strategy" record = Some b_cs ->
  assoc "prompt_template" record = Some b_pt ->
  assoc "attack_module" record = Some b_am ->
  assoc "metric" record = Some b_metric ->
  (bookmark_prompt endpoint prompt_id bookmark_name s).1 = Ok tt
  /\ Commands.active_session (bookmark_prompt endpoint prompt_id bookmark_name s).2
     = Commands.active_session s
  /\ Commands.calls (bookmark_prompt endpoint prompt_id bookmark_name s).2
     = Commands.calls s
       ++ [inr (CallInsertBookmark (VStr bookmark_name) b_prompt b_response
                                   b_cs b_pt b_am b_metric)].
Proof.
  intros Hact Hchats Hep Hpre Hid Heq Hp Hr Hcs Hpt Ham Hm.
  unfold bookmark_prompt, bind, gets. rewrite Hact, Hchats.
  unfold try_except, bind, lift. cbn [default from_option Datatypes.id py_get]. rewrite Hep.
  cbn [default from_option Datatypes.id].
  assert (Hlist : truthy (VList (pre ++ VDict record :: post)) = true)
    by (destruct pre; reflexivity).
  rewrite Hlist. cbn [negb py_iter].
  rewrite (find_record_first prompt_id pre (VDict record) post record_id Hpre
             (getitem_assoc _ _ _ Hid) Heq).
  rewrite (assoc_nonempty _ _ _ Hid).
  rewrite (getitem_assoc _ _ _ Hp), (getitem_assoc _ _ _ Hr),
    (getitem_assoc _ _ _ Hcs), (getitem_assoc _ _ _ Hpt),
    (getitem_assoc _ _ _ Ham), (getitem_assoc _ _ _ Hm).
  unfold Commands.call, Commands.print, modify.
  cbn [Commands.world Commands.active_session Commands.stdout Commands.calls].
  destruct (api_insert_bookmark (VStr bookmark_name) b_prompt b_response b_cs
              b_pt b_am b_metric (Commands.world s)) as [[message|e] w1].
  - destruct (getitem message "message"); repeat split; reflexivity.
  - repeat split; reflexivity.
Qed.

(** X16: [bookmark_prompt] does not call the store when there is nothing
    to bookmark: the chats were never loaded into the session, the
    endpoint is not one of the session's, or no record of the endpoint has
    the prompt id.  It prints one line and changes nothing else. *)
Theorem bookmark_prompt_without_a_match
        (s : Commands.state) (endpoint bookmark_name : string) (prompt_id : Z) :
  session_is_active (Commands.active_session s) = true ->
  (Commands.active_session s !! "list_of_endpoint_chats" = None ->
   bookmark_prompt endpoint prompt_id bookmark_name s
   = (Ok tt,
      Commands.mk_state (Commands.active_session s)
        (Commands.stdout s
           ++ ["[bookmark_prompt]: ('NoneType' object has no attribute 'get')"])
        (Commands.calls s) (Commands.world s)))
  /\ (forall endpoints,
         Commands.active_session s !! "list_of_endpoint_chats"
         = Some (VDict endpoints) ->
         assoc endpoint endpoints = None ->
         bookmark_prompt endpoint prompt_id bookmark_name s
         = (Ok tt,
            Commands.mk_state (Commands.active_session s)
              (Commands.stdout s
                 ++ ["Incorrect endpoint. Please select a valid endpoint in this session."])
              (Commands.calls s) (Commands.world s)))
  /\ (forall endpoints chat chats,
         Commands.active_session s !! "list_of_endpoint_chats"
         = Some (VDict endpoints) ->
         assoc endpoint endpoints = Some (VList (chat :: chats)) ->
         Forall (differs_from prompt_id) (chat :: chats) ->
         bookmark_prompt endpoint prompt_id bookmark_name s
         = (Ok tt,
            Commands.mk_state (Commands.active_session s)
              (Commands.stdout s
                 ++ [("Unable to find prompt ID in the of prompts for endpoint "
                        ++ endpoint ++ ". Please select a valid ID.")%string])
              (Commands.calls s) (Commands.world s))).
Proof.
  intros Hact. split; [|split].
  - intros Hnone. unfold bookmark_prompt, bind, gets. rewrite Hact, Hnone.
    reflexivity.
  - intros endpoints Hchats Hep.
    unfold bookmark_prompt, bind, gets. rewrite Hact, Hchats.
    unfold try_except, bind, lift. cbn [default from_option Datatypes.id py_get].
    rewrite Hep. reflexivity.
  - intros endpoints chat chats Hchats Hep Hall.
    unfold bookmark_prompt, bind, gets. rewrite Hact, Hchats.
    unfold try_except, bind, lift. cbn [default from_option Datatypes.id py_get].
    rewrite Hep. cbn [default from_option Datatypes.id truthy negb py_iter].
    rewrite (find_record_none prompt_id (chat :: chats) Hall). reflexivity.
Qed.

(** ** Using a bookmark *)

Lemma session_is_active_lookup (m : gmap string pyval) key v :
  m !! key = Some v -> session_is_active m = true.
Proof.
  intros H. unfold session_is_active.
  destruct (map_to_list m) eqn:E; [|reflexivity].
  apply map_to_list_empty_iff in E. subst m.
  rewrite lookup_empty in H. discriminate.
Qed.

(** [use_bookmark] up to the second update of the store. *)
Lemma use_bookmark_unfold
      (s : Commands.state) (name : string) (bd : list (string * pyval))
      (b_prompt b_pt b_cs sid : pyval) (w1 w2 : World) :
  session_is_active (Commands.active_session s) = true ->
  api_get_bookmark (VStr name) (Commands.world s) = (Ok (VDict bd), w1) ->
  assoc "prompt" bd = Some b_prompt ->
  assoc "prompt_template" bd = Some b_pt ->
  assoc "context_strategy" bd = Some b_cs ->
  Commands.active_session s !! "session_id" = Some sid ->
  api_update_prompt_template sid b_pt w1 = (Ok tt, w2) ->
  use_bookmark name s
  = let line :=
      ("[bold yellow]Updated session with bookmarked context strategy:[/] "
         ++ py_str b_pt ++ " [bold yellow]and prompt template:[/] "
         ++ py_str b_cs ++ ".")%string in
    let log :=
      Commands.calls s
        ++ [inr (CallGetBookmark (VStr name));
            inr (CallUpdatePromptTemplate sid b_pt);
            inr (CallUpdateContextStrategy sid b_cs)] in
    match api_update_context_strategy sid b_cs w2 with
    | (Raise e, w3) =>
        (Ok tt,
         Commands.mk_state (Commands.active_session s)
           (Commands.stdout s ++ [line; ("[use_bookmark]: " ++ exn_str e)%string])
           log w3)
    | (Ok _, w3) =>
        let sess := <["context_strategy" := b_cs]>
                      (<["prompt_template" := b_pt]> (Commands.active_session s)) in
        match assoc "attack_module" bd with
        | None =>
            (Ok tt,
             Commands.mk_state sess
               (Commands.stdout s ++ [line; "[use_bookmark]: 'attack_module'"])
               log w3)
        | Some am =>
            (Ok tt,
             Commands.mk_state sess
               (Commands.stdout s
                  ++ [line;
                      if truthy am
                      then ("[bold yellow]Copy this command and paste it below:[/] "
                              ++ "run_attack_module " ++ py_str am ++ " "
                              ++ dquote ++ py_str b_prompt ++ dquote)%string
                      else ("[bold yellow]Copy this prompt and paste it below: [/]"
                              ++ py_str b_prompt)%string])
               log w3)
        end
    end.
Proof.
  intros Hact Hget Hp Hpt Hcs Hsid Hupd.
  unfold use_bookmark, bind, gets. rewrite Hact.
  unfold session_key, store_key.
  unfold try_except, bind, Commands.call, lift,
    Commands.print, Commands.set_active_session, modify, gets, subscript.
  rewrite Hget.
  rewrite (assoc_nonempty _ _ _ Hp).
  rewrite (getitem_assoc _ _ _ Hp), (getitem_assoc _ _ _ Hpt),
    (getitem_assoc _ _ _ Hcs).
  cbn [Commands.world Commands.active_session Commands.stdout Commands.calls].
  rewrite Hsid.
  cbn [Commands.world Commands.active_session Commands.stdout Commands.calls].
  rewrite Hupd.
  cbn [Commands.world Commands.active_session Commands.stdout Commands.calls].
  rewrite Hsid.
  cbn [Commands.world Commands.active_session Commands.stdout Commands.calls].
  destruct (api_update_context_strategy sid b_cs w2) as [[[]|e] w3].
  - cbn [Commands.world Commands.active_session Commands.stdout Commands.calls
         getitem].
    destruct (assoc "attack_module" bd) as [am|].
    + destruct (truthy am); cbn; rewrite <- !app_assoc; reflexivity.
    + cbn. rewrite <- !app_assoc. reflexivity.
  - cbn. rewrite <- !app_assoc. reflexivity.
Qed.

(** X17: [use_bookmark] changes the active session only after both
    updates of the store have succeeded.  When the second one raises, the
    store already has the new prompt template and the console already
    says the session is updated, but the session dictionary is unchanged.
    When both succeed, the session gets the prompt template and the context
    strategy of the bookmark, and nothing else: the number of previous
    prompts is not set. *)
Theorem use_bookmark_updates_the_store_first
        (s : Commands.state) (name : string) (bd : list (string * pyval))
        (b_prompt b_pt b_cs b_am sid : pyval) (w1 w2 w3 : World) :
  session_is_active (Commands.active_session s) = true ->
  api_get_bookmark (VStr name) (Commands.world s) = (Ok (VDict bd), w1) ->
  assoc "prompt" bd = Some b_prompt ->
  assoc "prompt_template" bd = Some b_pt ->
  assoc "context_strategy" bd = Some b_cs ->
  assoc "attack_module" bd = Some b_am ->
  Commands.active_session s !! "session_id" = Some sid ->
  api_update_prompt_template sid b_pt w1 = (Ok tt, w2) ->
  (forall e,
      api_update_context_strategy sid b_cs w2 = (Raise e, w3) ->
      (use_bookmark name s).1 = Ok tt
      /\ Commands.active_session (use_bookmark name s).2
         = Commands.active_session s
      /\ Commands.calls (use_bookmark name s).2
         = Commands.calls s
           ++ [inr (CallGetBookmark (VStr name));
               inr (CallUpdatePromptTemplate sid b_pt);
               inr (CallUpdateContextStrategy sid b_cs)])
  /\ (api_update_context_strategy sid b_cs w2 = (Ok tt, w3) ->
      (use_bookmark name s).1 = Ok tt
      /\ Commands.active_session (use_bookmark name s).2
         = <["context_strategy" := b_cs]>
             (<["prompt_template" := b_pt]> (Commands.active_session s))
      /\ Commands.active_session (use_bookmark name s).2 !! "cs_num_of_prev_prompts"
         = Commands.active_session s !! "cs_num_of_prev_prompts"
      /\ Commands.calls (use_bookmark name s).2
         = Commands.calls s
           ++ [inr (CallGetBookmark (VStr name));
               inr (CallUpdatePromptTemplate sid b_pt);
               inr (CallUpdateContextStrategy sid b_cs)]).
Proof.
  intros Hact Hget Hp Hpt Hcs Ham Hsid Hupd.
  rewrite (use_bookmark_unfold s name bd b_prompt b_pt b_cs sid w1 w2
             Hact Hget Hp Hpt Hcs Hsid Hupd).
  split.
  - intros e He. rewrite He. repeat split; reflexivity.
  - intros Hok. rewrite Hok, Ham. cbn.
    repeat split; try reflexivity.
    rewrite !lookup_insert_ne by discriminate. reflexivity.
Qed.

(** A session with a context strategy but no number of previous prompts
    cannot run an attack module: the [KeyError] is printed. *)
Lemma run_attack_module_without_window
      (args : attack_args) (c : Cli.state) (pt cs : pyval) :
  Cli.active_session c !! "prompt_template" = Some pt ->
  Cli.active_session c !! "context_strategy" = Some cs ->
  truthy cs = true ->
  Cli.active_session c !! "cs_num_of_prev_prompts" = None ->
  run_attack_module args c
  = (Ok tt,
     Cli.mk_state (Cli.active_session c)
       (Cli.stdout c ++ ["[run_attack_module]: str('cs_num_of_prev_prompts')"])
       (Cli.calls c) (Cli.world c)).
Proof.
  intros Hpt Hcs Htrue Hnone.
  unfold run_attack_module, bind, gets.
  rewrite (session_is_active_lookup _ _ _ Hpt). cbn [negb].
  unfold try_except, bind, lift, attack_runner_args, session_strategy, subscript.
  rewrite Hpt, Hcs, Hnone. cbn [res_bind].
  destruct (truthy pt); cbn [res_bind]; rewrite Htrue; reflexivity.
Qed.

(** X18: a bookmark with a context strategy, used in a session that has no
    ["cs_num_of_prev_prompts"], leaves a session in which
    [run_attack_module] cannot run: the session now has a context strategy
    but no number of previous prompts, so the command prints the
    [KeyError] and never loads the runner. *)
Theorem use_bookmark_then_run_attack_module
        (s : Commands.state) (name : string) (args : attack_args)
        (bd : list (string * pyval))
        (b_prompt b_pt b_cs b_am sid : pyval) (w1 w2 w3 : World) :
  session_is_active (Commands.active_session s) = true ->
  api_get_bookmark (VStr name) (Commands.world s) = (Ok (VDict bd), w1) ->
  assoc "prompt" bd = Some b_prompt ->
  assoc "prompt_template" bd = Some b_pt ->
  assoc "context_strategy" bd = Some b_cs ->
  assoc "attack_module" bd = Some b_am ->
  Commands.active_session s !! "session_id" = Some sid ->
  api_update_prompt_template sid b_pt w1 = (Ok tt, w2) ->
  api_update_context_strategy sid b_cs w2 = (Ok tt, w3) ->
  truthy b_cs = true ->
  Commands.active_session s !! "cs_num_of_prev_prompts" = None ->
  from_cli (run_attack_module args) (use_bookmark name s).2
  = (Ok tt,
     Commands.mk_state
       (Commands.active_session (use_bookmark name s).2)
       (Commands.stdout (use_bookmark name s).2
          ++ ["[run_attack_module]: str('cs_num_of_prev_prompts')"])
       (Commands.calls (use_bookmark name s).2)
       (Commands.world (use_bookmark name s).2)).
Proof.
  intros Hact Hget Hp Hpt Hcs Ham Hsid Hupd Hok Htrue Hnone.
  rewrite (use_bookmark_unfold s name bd b_prompt b_pt b_cs sid w1 w2
             Hact Hget Hp Hpt Hcs Hsid Hupd).
  rewrite Hok, Ham. cbn [snd].
  unfold from_cli.
  rewrite (run_attack_module_without_window args _ b_pt b_cs).
  - cbn. now rewrite app_nil_r.
  - cbn. rewrite lookup_insert_ne by discriminate. apply lookup_insert_eq.
  - cbn. apply lookup_insert_eq.
  - exact Htrue.
  - cbn. rewrite !lookup_insert_ne by discriminate. exact Hnone.
Qed.

(** ** Using a session, when it loads *)

Lemma from_cli_session {T} (m : M Cli.state T) (s : Commands.state) key :
  (forall c, Cli.active_session (m c).2 !! key = Cli.active_session c !! key) ->
  Commands.active_session (from_cli m s).2 !! key
  = Commands.active_session s !! key.
Proof.
  intros Hm. unfold from_cli.
  specialize (Hm (Cli.mk_state (Commands.active_session s) (Commands.stdout s)
                               [] (Commands.world s))).
  destruct (m _) as [r c]. exact Hm.
Qed.

Lemma use_session_session
      (s : Commands.state) (runner_id : string) (d : list (string * pyval))
      (w1 : World) (cs : pyval) :
  api_load_session (VStr runner_id) (Commands.world s) = (Ok (VDict d), w1) ->
  d <> [] ->
  foldl (fun acc kv => <[kv.1 := kv.2]> acc) (Commands.active_session s) d
    !! "context_strategy" = Some cs ->
  exists final,
    use_session runner_id s = (Ok tt, final)
    /\ forall key,
         key <> "list_of_endpoint_chats" ->
         Commands.active_session final !! key
         = (if truthy cs
            then <["cs_num_of_prev_prompts" := DEFAULT_CONTEXT_STRATEGY_PROMPT]>
                   (foldl (fun acc kv => <[kv.1 := kv.2]> acc)
                          (Commands.active_session s) d)
            else foldl (fun acc kv => <[kv.1 := kv.2]> acc)
                       (Commands.active_session s) d) !! key.
Proof.
  intros Hload Hne Hcs.
  assert (Htruthy : truthy (VDict d) = true)
    by (destruct d; [contradiction|reflexivity]).
  unfold use_session, Commands.print.
  unfold try_except, bind, Commands.call, lift, gets,
    Commands.set_active_session, modify, dict_update, ret.
  rewrite Hload, Htruthy. cbn [negb Commands.active_session Commands.stdout
                               Commands.calls Commands.world].
  unfold subscript at 1. rewrite Hcs.
  set (merged := foldl _ (Commands.active_session s) d) in *.
  destruct (truthy cs);
    cbn [negb Commands.active_session Commands.stdout Commands.calls
         Commands.world].
  - match goal with
    | |- context [subscript ?m "session_id"] =>
        destruct (subscript m "session_id") as [sid|e]
    end.
    + match goal with
      | |- context [from_cli update_chat_display ?st] =>
          pose proof (fun key (H : key <> "list_of_endpoint_chats") =>
                        from_cli_session update_chat_display st key
                          (fun c => CliMore.update_chat_display_keeps key c H))
            as Hkeep;
          destruct (from_cli update_chat_display st) as [[[]|e] s3]
      end.
      * eexists. split; [reflexivity|]. intros key Hkey. exact (Hkeep key Hkey).
      * eexists. split; [reflexivity|]. intros key Hkey. exact (Hkeep key Hkey).
    + eexists. split; [reflexivity|]. intros key _. reflexivity.
  - match goal with
    | |- context [subscript ?m "session_id"] =>
        destruct (subscript m "session_id") as [sid|e]
    end.
    + match goal with
      | |- context [from_cli update_chat_display ?st] =>
          pose proof (fun key (H : key <> "list_of_endpoint_chats") =>
                        from_cli_session update_chat_display st key
                          (fun c => CliMore.update_chat_display_keeps key c H))
            as Hkeep;
          destruct (from_cli update_chat_display st) as [[[]|e] s3]
      end.
      * eexists. split; [reflexivity|]. intros key Hkey. exact (Hkeep key Hkey).
      * eexists. split; [reflexivity|]. intros key Hkey. exact (Hkeep key Hkey).
    + eexists. split; [reflexivity|]. intros key _. reflexivity.
Qed.

(** X19: [use_session] merges the loaded metadata into the session
    dictionary and, whenever the merged session has a context strategy,
    sets the number of previous prompts to the default, whatever it was
    before.  Keys of the previously active session that the metadata lacks
    are kept, whatever happens when the chats are displayed. *)
Theorem use_session_sets_the_default_window
        (s : Commands.state) (runner_id : string) (d : list (string * pyval))
        (w1 : World) (cs : pyval) :
  api_load_session (VStr runner_id) (Commands.world s) = (Ok (VDict d), w1) ->
  d <> [] ->
  match Cli.assoc "context_strategy" (reverse d) with
  | Some v => Some v
  | None => Commands.active_session s !! "context_strategy"
  end = Some cs ->
  (use_session runner_id s).1 = Ok tt
  /\ Commands.active_session (use_session runner_id s).2 !! "cs_num_of_prev_prompts"
     = (if truthy cs then Some DEFAULT_CONTEXT_STRATEGY_PROMPT
        else match Cli.assoc "cs_num_of_prev_prompts" (reverse d) with
             | Some v => Some v
             | None => Commands.active_session s !! "cs_num_of_prev_prompts"
             end)
  /\ forall key,
       key <> "cs_num_of_prev_prompts" ->
       key <> "list_of_endpoint_chats" ->
       Commands.active_session (use_session runner_id s).2 !! key
       = match Cli.assoc key (reverse d) with
         | Some v => Some v
         | None => Commands.active_session s !! key
         end.
Proof.
  intros Hload Hne Hcs.
  rewrite <- (CliMore.dict_update_lookup (Commands.active_session s) d) in Hcs.
  destruct (use_session_session s runner_id d w1 cs Hload Hne Hcs)
    as (final & Hrun & Hkeys).
  rewrite Hrun. cbn [fst snd].
  split; [reflexivity|]. split.
  - rewrite Hkeys by discriminate. destruct (truthy cs).
    + apply lookup_insert_eq.
    + apply CliMore.dict_update_lookup.
  - intros key Hk1 Hk2. rewrite (Hkeys key Hk2). destruct (truthy cs).
    + rewrite lookup_insert_ne by congruence. apply CliMore.dict_update_lookup.
    + apply CliMore.dict_update_lookup.
Qed.

End Facts.

Lemma deletion_needs_a_yes_witness :
  delete_bookmark (St := Demo.demo_store) "my-bookmark"
                  (Demo.command_state Demo.a_session)
  = (Ok tt,
     Commands.mk_state (A := Demo.demo_api) Demo.a_session
       ["[bold yellow]Bookmark deletion cancelled.[/]"]
       [inr (CallInput "[bold red]Are you sure you want to delete the bookmark (y/N)? [/]")]
       tt)
  /\ store_calls
       (Commands.calls
          (delete_session (St := Demo.store_answering "Y" (Ok tt)) "my-runner"
                          (Demo.command_state Demo.a_session)).2)
     = [CallInput "[bold red]Are you sure you want to delete the session (y/N)? [/]";
        CallDeleteSession (VStr "my-runner")].
Proof.
  split.
  - exact (proj1 (deletion_needs_a_yes (St := Demo.demo_store)
                    (Demo.command_state Demo.a_session) "my-bookmark" "n" tt)
                 eq_refl).
  - exact (proj2 (deletion_needs_a_yes (St := Demo.store_answering "Y" (Ok tt))
                    (Demo.command_state Demo.a_session) "my-runner" "Y" tt)
                 eq_refl).
Defined.

Lemma use_session_failure_keeps_the_session_witness :
  use_session (A := Demo.api_loading (Ok VNone))
              (St := Demo.store_of (Demo.api_loading (Ok VNone)))
              "lost-runner"
              (Commands.mk_state (A := Demo.api_loading (Ok VNone))
                                 Demo.a_session [] [] tt)
  = (Ok tt,
     Commands.mk_state (A := Demo.api_loading (Ok VNone)) Demo.a_session
       ["[Session] Cannot find a session with the existing Runner ID. Please try again."]
       [inl (CallLoadSession (VStr "lost-runner"))] tt)
  /\ use_session (A := Demo.api_loading (Raise Demo.not_found))
                 (St := Demo.store_of (Demo.api_loading (Raise Demo.not_found)))
                 "lost-runner"
                 (Commands.mk_state (A := Demo.api_loading (Raise Demo.not_found))
                                    Demo.a_session [] [] tt)
     = (Ok tt,
        Commands.mk_state (A := Demo.api_loading (Raise Demo.not_found))
          Demo.a_session ["[use_session]: no such runner"]
          [inl (CallLoadSession (VStr "lost-runner"))] tt).
Proof.
  split.
  - exact (proj1 (use_session_failure_keeps_the_session
                    (A := Demo.api_loading (Ok VNone))
                    (St := Demo.store_of (Demo.api_loading (Ok VNone)))
                    (Commands.mk_state (A := Demo.api_loading (Ok VNone))
                                       Demo.a_session [] [] tt)
                    "lost-runner" tt)
                 VNone eq_refl eq_refl).
  - exact (proj2 (use_session_failure_keeps_the_session
                    (A := Demo.api_loading (Raise Demo.not_found))
                    (St := Demo.store_of (Demo.api_loading (Raise Demo.not_found)))
                    (Commands.mk_state (A := Demo.api_loading (Raise Demo.not_found))
                                       Demo.a_session [] [] tt)
                    "lost-runner" tt)
                 Demo.not_found eq_refl).
Defined.

Lemma bookmark_prompt_takes_the_first_match_witness :
  (bookmark_prompt (St := Demo.demo_store) "openai-gpt4" 2 "my-bookmark"
                   (Demo.command_state Demo.chat_session)).1 = Ok tt
  /\ Commands.active_session
       (bookmark_prompt (St := Demo.demo_store) "openai-gpt4" 2 "my-bookmark"
                        (Demo.command_state Demo.chat_session)).2
     = Demo.chat_session
  /\ Commands.calls
       (bookmark_prompt (St := Demo.demo_store) "openai-gpt4" 2 "my-bookmark"
                        (Demo.command_state Demo.chat_session)).2
     = [] ++ [inr (CallInsertBookmark (VStr "my-bookmark") (VStr "second")
                     (VStr "an answer") (VStr "") (VStr "mmlu") (VStr "")
                     (VStr ""))].
Proof.
  apply (bookmark_prompt_takes_the_first_match (St := Demo.demo_store)
           (Demo.command_state Demo.chat_session) "openai-gpt4" "my-bookmark" 2
           [("openai-gpt4",
             VList [Demo.chat 1 "first"; Demo.chat 2 "second"; Demo.chat 2 "third"])]
           [Demo.chat 1 "first"] [Demo.chat 2 "third"]
           [("chat_record_id", VInt 2); ("prompt", VStr "second");
            ("predicted_result", VStr "an answer"); ("context_strategy", VStr "");
            ("prompt_template", VStr "mmlu"); ("attack_module", VStr "");
            ("metric", VStr "")]
           (VInt 2)).
  all: try (vm_compute; reflexivity).
  constructor; [|constructor]. exists (VInt 1). split; reflexivity.
Defined.

Lemma bookmark_prompt_without_a_match_witness :
  bookmark_prompt (St := Demo.demo_store) "openai-gpt4" 7 "my-bookmark"
                  (Demo.command_state Demo.chat_session)
  = (Ok tt,
     Commands.mk_state (A := Demo.demo_api) Demo.chat_session
       ["Unable to find prompt ID in the of prompts for endpoint openai-gpt4. Please select a valid ID."]
       [] tt).
Proof.
  refine (proj2 (proj2 (bookmark_prompt_without_a_match (St := Demo.demo_store)
                          (Demo.command_state Demo.chat_session)
                          "openai-gpt4" "my-bookmark" 7 _))
                [("openai-gpt4",
                  VList [Demo.chat 1 "first"; Demo.chat 2 "second";
                         Demo.chat 2 "third"])]
                (Demo.chat 1 "first") [Demo.chat 2 "second"; Demo.chat 2 "third"]
                _ _ _).
  - vm_compute. reflexivity.
  - vm_compute. reflexivity.
  - reflexivity.
  - repeat constructor.
    + exists (VInt 1). split; reflexivity.
    + exists (VInt 2). split; reflexivity.
    + exists (VInt 2). split; reflexivity.
Defined.

Lemma use_bookmark_updates_the_store_first_witness :
  Commands.active_session
    (use_bookmark (St := Demo.store_answering "n" (Raise Demo.store_down))
                  "my-bookmark" (Demo.command_state Demo.plain_session)).2
  = Demo.plain_session
  /\ Commands.active_session
       (use_bookmark (St := Demo.demo_store) "my-bookmark"
                     (Demo.command_state Demo.plain_session)).2
     = <["context_strategy" := VStr "add_previous_prompt"]>
         (<["prompt_template" := VStr "mmlu"]> Demo.plain_session).
Proof.
  split.
  - refine (proj1 (proj2
             (proj1 (use_bookmark_updates_the_store_first
                       (St := Demo.store_answering "n" (Raise Demo.store_down))
                       (Demo.command_state Demo.plain_session) "my-bookmark"
                       _ (VStr "bookmarked prompt") (VStr "mmlu")
                       (VStr "add_previous_prompt") (VStr "")
                       (VStr "my-runner") tt tt tt _ eq_refl eq_refl eq_refl
                       eq_refl eq_refl _ eq_refl)
                    Demo.store_down eq_refl))).
    all: vm_compute; reflexivity.
  - refine (proj1 (proj2
             (proj2 (use_bookmark_updates_the_store_first
                       (St := Demo.demo_store)
                       (Demo.command_state Demo.plain_session) "my-bookmark"
                       _ (VStr "bookmarked prompt") (VStr "mmlu")
                       (VStr "add_previous_prompt") (VStr "")
                       (VStr "my-runner") tt tt tt _ eq_refl eq_refl eq_refl
                       eq_refl eq_refl _ eq_refl)
                    eq_refl))).
    all: vm_compute; reflexivity.
Defined.

Lemma use_bookmark_then_run_attack_module_witness :
  Commands.stdout
    (from_cli (run_attack_module (Demo.attack None None))
       (use_bookmark (St := Demo.demo_store) "my-bookmark"
                     (Demo.command_state Demo.plain_session)).2).2
  = Commands.stdout
      (use_bookmark (St := Demo.demo_store) "my-bookmark"
                    (Demo.command_state Demo.plain_session)).2
    ++ ["[run_attack_module]: str('cs_num_of_prev_prompts')"].
Proof.
  refine (f_equal (fun out => Commands.stdout out.2)
            (use_bookmark_then_run_attack_module (St := Demo.demo_store)
               (Demo.command_state Demo.plain_session) "my-bookmark"
               (Demo.attack None None) _ (VStr "bookmarked prompt") (VStr "mmlu")
               (VStr "add_previous_prompt") (VStr "") (VStr "my-runner")
               tt tt tt _ eq_refl eq_refl eq_refl eq_refl eq_refl _ eq_refl
               eq_refl eq_refl _)).
  all: vm_compute; reflexivity.
Defined.

Lemma use_session_sets_the_default_window_witness :
  Commands.active_session
    (use_session (St := Demo.demo_store) "other-runner"
                 (Demo.command_state Demo.wide_session)).2
    !! "cs_num_of_prev_prompts" = Some (VInt 5)
  /\ Commands.active_session
       (use_session (St := Demo.demo_store) "other-runner"
                    (Demo.command_state Demo.wide_session)).2
       !! "prompt_template" = Some (VStr "mmlu").
Proof.
  destruct (use_session_sets_the_default_window (St := Demo.demo_store)
              (Demo.command_state Demo.wide_session) "other-runner"
              [("session_id", VStr "other-runner")] tt
              (VStr "add_previous_prompt") eq_refl ltac:(discriminate)
              ltac:(vm_compute; reflexivity)) as (_ & Hwindow & Hkeys).
  split.
  - exact Hwindow.
  - rewrite (Hkeys "prompt_template") by discriminate.
    vm_compute. reflexivity.
Defined.

End CommandsFacts.
